(** * SegScript: transcript cache and time-range query (src/main.py)

    A shallow embedding of [main.py] and the properties of its time-code
    parser, its range query and its acquire-or-load logic.

    Modelling conventions.
    - A Python [str] is a Rocq [string]; the development covers ASCII text
      (characters with code below 128).  Codes 128..255 stand for characters
      that are neither decimal digits nor white space.
    - A Python [int] is a [Z]; a Python [float] is an IEEE-754 binary64
      number, i.e. a [spec_float] used at precision 53 and [emax = 1024].
      The builtins [int] and [float] follow CPython 3.11 and later, where
      [int] refuses more than 4300 digits.
    - A raised exception is the [Raise] branch of [result]; code with
      effects runs in the monad [M] over the state [World].
    - A file under [~/.segscript] is represented by the JSON document it
      holds: [json.dump] followed by [json.load] is the identity on the
      values occurring here.
    - Creating the directory and writing a file are taken to succeed: the
      model covers runs in which [~/.segscript] can be created or is a
      directory already and the video id names a file directly in it (no
      path separator).  Runs in which [mkdir] or [open] raise are outside
      the model. *)

From Stdlib Require Import ZArith QArith String Ascii List Bool Lia.
From Stdlib Require Import Floats.SpecFloat.
From stdpp Require Import base gmap strings list fin_maps.

Import ListNotations.
Local Open Scope string_scope.
Local Open Scope Z_scope.

(** ** Exceptions and results *)

Inductive exn : Type :=
  | ValueError
  | OverflowError
  | TypeError
  | KeyError
  | AttributeError
  | FileNotFoundError
  | YouTubeTranscriptApiException   (* the failures of the transcript API *)
  | ConnectionError.                (* a failure below the API, not wrapped by it *)

Inductive result (A : Type) : Type :=
  | Ok (a : A)
  | Raise (e : exn).
Arguments Ok {A} a.
Arguments Raise {A} e.

#[global] Instance result_ret : MRet result := fun A a => Ok a.

#[global] Instance result_bind : MBind result := fun A B k r =>
  match r with
  | Ok a => k a
  | Raise e => Raise e
  end.

(** ** Binary64 floats *)

Module Float.

Definition prec : Z := 53.
Definition emax : Z := 1024.

Definition float : Type := spec_float.

Definition add : float -> float -> float := SFadd prec emax.

(** [x <= y] and [x >= y] on floats; both are false when an operand is
    a NaN. *)
Definition leb (x y : float) : bool :=
  match SFcompare x y with
  | Some Lt | Some Eq => true
  | _ => false
  end.

Definition geb (x y : float) : bool :=
  match SFcompare x y with
  | Some Gt | Some Eq => true
  | _ => false
  end.

(** The correctly rounded (to nearest, ties to even) float of [m * 2^e]. *)
Definition of_Z_exp (m e : Z) : float := binary_normalize prec emax m e false.

Definition of_Z (z : Z) : float := of_Z_exp z 0.

(** The correctly rounded float of the fraction [n / d], [n, d > 0],
    with sign [s]: the quotient is computed with at least [prec + 2]
    bits and the remainder is kept as a rounding location. *)
Definition of_fraction (s : bool) (n d : Z) : float :=
  let k := Z.max 0 (Z.log2 d - Z.log2 n + prec + 3) in
  let '(q, r) := Z.div_eucl (Z.shiftl n k) d in
  let loc :=
    if r =? 0 then loc_Exact
    else loc_Inexact (Z.compare (2 * r) d) in
  binary_round_aux prec emax s q (- k) loc.

(** The correctly rounded float of [(-1)^s * m * 10^e], [m >= 0], where
    [nd] bounds the number of decimal digits of [m].  Outside the
    decimal range of binary64 the result is an infinity or a zero. *)
Definition of_decimal (s : bool) (m : Z) (nd : Z) (e : Z) : float :=
  if m =? 0 then S754_zero s
  else if 400 <? e then S754_infinity s
  else if e + nd <? -400 then S754_zero s
  else if 0 <=? e then binary_normalize prec emax (cond_Zopp s (m * 10 ^ e)) 0 s
  else of_fraction s m (10 ^ (- e)).

(** The rational value of a finite float. *)
Definition value (x : float) : option Q :=
  match x with
  | S754_zero _ => Some 0%Q
  | S754_finite s m e =>
      let q := if 0 <=? e then inject_Z (Zpos m * 2 ^ e)
               else Qmake (Zpos m) (Z.to_pos (2 ^ (- e))) in
      Some (Qred (if s then Qopp q else q))
  | _ => None
  end.

(** Exact comparison of an integer with a float, as Python performs it
    for mixed operands: [Some c] with [c] the order of [z] against [x],
    [None] for a NaN. *)
Definition compare_Z (z : Z) (x : float) : option comparison :=
  match x with
  | S754_nan => None
  | S754_infinity s => Some (if s then Gt else Lt)
  | S754_zero _ => Some (z ?= 0)
  | S754_finite s m e =>
      let v := cond_Zopp s (Zpos m) in
      Some (if 0 <=? e then z ?= v * 2 ^ e else z * 2 ^ (- e) ?= v)
  end.

End Float.

Abbreviation float := Float.float.

(** ** Python strings *)

Module Str.

Definition code (c : ascii) : Z := Z.of_N (N_of_ascii c).

(** [Py_ISSPACE]: space, tab, line feed, vertical tab, form feed and
    carriage return. *)
Definition is_space (c : ascii) : bool :=
  (code c =? 32) || ((9 <=? code c) && (code c <=? 13)).

Definition is_digit (c : ascii) : bool :=
  (48 <=? code c) && (code c <=? 57).

Definition digit_value (c : ascii) : Z := code c - 48.

(** ASCII lower-casing, used where Python compares case-insensitively. *)
Definition lower (c : ascii) : ascii :=
  if (65 <=? code c) && (code c <=? 90)
  then ascii_of_N (Z.to_N (code c + 32)) else c.

Fixpoint lower_all (s : string) : string :=
  match s with
  | EmptyString => EmptyString
  | String c r => String (lower c) (lower_all r)
  end.

(** [s.split(sep)] with a one-character separator: every occurrence
    splits, and the result always has at least one element. *)
Fixpoint split (sep : ascii) (s : string) : list string :=
  match s with
  | EmptyString => [EmptyString]
  | String c r =>
      if Ascii.eqb c sep then EmptyString :: split sep r
      else match split sep r with
           | h :: t => String c h :: t
           | [] => [String c EmptyString]
           end
  end.

(** [sep.join(parts)] *)
Definition join (sep : string) (parts : list string) : string :=
  String.concat sep parts.

Fixpoint lstrip (s : string) : string :=
  match s with
  | String c r => if is_space c then lstrip r else s
  | EmptyString => EmptyString
  end.

Fixpoint all_space (s : string) : bool :=
  match s with
  | String c r => is_space c && all_space r
  | EmptyString => true
  end.

(** Removes trailing white space. *)
Fixpoint rstrip (s : string) : string :=
  match s with
  | String c r => if all_space s then EmptyString else String c (rstrip r)
  | EmptyString => EmptyString
  end.

Definition strip (s : string) : string := rstrip (lstrip s).

Fixpoint contains (c : ascii) (s : string) : bool :=
  match s with
  | String d r => Ascii.eqb c d || contains c r
  | EmptyString => false
  end.

(** The longest prefix of decimal digits, and the rest. *)
Fixpoint span_digits (s : string) : string * string :=
  match s with
  | String c r =>
      if is_digit c then let '(d, t) := span_digits r in (String c d, t)
      else (EmptyString, s)
  | EmptyString => (EmptyString, EmptyString)
  end.

(** The number written by a string of decimal digits. *)
Fixpoint digits_value (acc : Z) (s : string) : Z :=
  match s with
  | String c r => digits_value (10 * acc + digit_value c) r
  | EmptyString => acc
  end.

(** An optional leading sign: [true] for a minus. *)
Definition take_sign (s : string) : bool * string :=
  match s with
  | String "-" r => (true, r)
  | String "+" r => (false, r)
  | _ => (false, s)
  end.

Fixpoint repeat (c : ascii) (n : nat) : string :=
  match n with
  | O => EmptyString
  | S k => String c (repeat c k)
  end.

End Str.

(** ** The builtins [int(str)] and [float(str)] *)

Module Builtins.
Import Str.

(** [sys.int_info.default_max_str_digits] *)
Definition int_max_str_digits : nat := 4300.

(** The digit loop of [int]: reads digits and single underscores
    between them up to the first other character; counts the digits and
    accumulates the value.  [None] on a doubled or trailing underscore. *)
Fixpoint scan_int (s : string) (prev_us : bool) (n : nat) (v : Z)
  : option (nat * Z * string) :=
  match s with
  | String c r =>
      if is_digit c then scan_int r false (S n) (10 * v + digit_value c)
      else if Ascii.eqb c "_" then
        if prev_us then None else scan_int r true n v
      else if prev_us then None else Some (n, v, s)
  | EmptyString => if prev_us then None else Some (n, v, EmptyString)
  end.

(** [int(s)], base 10: optional white space, an optional sign, digits
    with single underscores between them, optional white space.
    [ValueError] otherwise, and for more than [int_max_str_digits]
    digits. *)
Definition py_int (s : string) : result Z :=
  let '(neg, body) := take_sign (lstrip s) in
  match body with
  | String "_" _ => Raise ValueError
  | _ =>
      match scan_int body false 0 0 with
      | None => Raise ValueError
      | Some (n, v, rest) =>
          if (n =? 0)%nat then Raise ValueError
          else if negb (all_space rest) then Raise ValueError
          else if (int_max_str_digits <? n)%nat then Raise ValueError
          else Ok (if neg then - v else v)
      end
  end.

(** Underscores of a float literal: each must stand between two digits;
    they are removed.  [prev] is the previous character. *)
Fixpoint drop_underscores (s : string) (prev : ascii) : option string :=
  match s with
  | EmptyString => if Ascii.eqb prev "_" then None else Some EmptyString
  | String c r =>
      if Ascii.eqb c "_" then
        if is_digit prev then drop_underscores r c else None
      else if Ascii.eqb prev "_" && negb (is_digit c) then None
      else String c <$> drop_underscores r c
  end.

(** The exponent part of a float literal: empty, or [e] or [E], an
    optional sign and at least one digit, up to the end of the string. *)
Definition parse_exponent (s : string) : option Z :=
  match s with
  | EmptyString => Some 0
  | String c r =>
      if Ascii.eqb (lower c) "e" then
        let '(neg, r') := take_sign r in
        let '(ds, rest) := span_digits r' in
        match ds, rest with
        | String _ _, EmptyString =>
            Some (if neg then - digits_value 0 ds else digits_value 0 ds)
        | _, _ => None
        end
      else None
  end.

(** A decimal literal without sign: digits, an optional point and
    digits, at least one digit in all, an optional exponent. *)
Definition parse_decimal (neg : bool) (s : string) : option float :=
  let '(ip, r1) := span_digits s in
  let '(fp, r2) :=
    match r1 with
    | String "." r => span_digits r
    | _ => (EmptyString, r1)
    end in
  let ds := ip ++ fp in
  match ds with
  | EmptyString => None
  | _ =>
      e ← parse_exponent r2;
      Some (Float.of_decimal neg (digits_value 0 ds)
              (Z.of_nat (String.length ds))
              (e - Z.of_nat (String.length fp)))
  end.

(** [inf], [infinity] and [nan], in any letter case. *)
Definition parse_inf_or_nan (neg : bool) (s : string) : option float :=
  let l := lower_all s in
  if String.eqb l "inf" || String.eqb l "infinity" then Some (S754_infinity neg)
  else if String.eqb l "nan" then Some S754_nan
  else None.

(** [float(s)]: underscores between digits are dropped, white space is
    stripped on both sides, and the rest is an optionally signed decimal
    literal or infinity or NaN, rounded to the nearest float.  A literal
    beyond the float range gives an infinity or a zero, never an error.
    [ValueError] for any other string. *)
Definition py_float (s : string) : result float :=
  let cleaned :=
    if contains "_" s then drop_underscores s "000" else Some s in
  match cleaned with
  | None => Raise ValueError
  | Some s1 =>
      match strip s1 with
      | EmptyString => Raise ValueError
      | s2 =>
          let '(neg, body) := take_sign s2 in
          match parse_decimal neg body with
          | Some x => Ok x
          | None =>
              match parse_inf_or_nan neg body with
              | Some x => Ok x
              | None => Raise ValueError
              end
          end
      end
  end.

(** The conversion Python applies to an [int] operand of a float
    operation: the nearest float, or [OverflowError] ("int too large to
    convert to float") when that is beyond the largest float. *)
Definition int_to_float (z : Z) : result float :=
  match Float.of_Z_exp z 0 with
  | S754_infinity _ => Raise OverflowError
  | x => Ok x
  end.

(** [z + x] for an [int] and a [float]. *)
Definition int_add_float (z : Z) (x : float) : result float :=
  y ← int_to_float z; Ok (Float.add y x).

End Builtins.

(** ** The time-code parser *)

Import Builtins.

(** [parse_time_to_seconds], main.py lines 28-47. *)
Definition parse_time_to_seconds (time_str : string) : result float :=
  let parts := Str.split ":" time_str in
  match parts with
  | [minutes; seconds] =>
      m ← py_int minutes;
      s ← py_float seconds;
      int_add_float (m * 60) s
  | [hours; minutes; seconds] =>
      h ← py_int hours;
      m ← py_int minutes;
      s ← py_float seconds;
      int_add_float (h * 3600 + m * 60) s
  | _ => Raise ValueError
  end.

(** ** Python values read from and written to JSON *)

#[local] Set Warnings "-register-all".

(** [None], [bool], [int], [float], [str], [list] and [dict]; a [dict]
    is the list of its items in insertion order, with distinct keys. *)
Inductive json : Type :=
  | JNull
  | JBool (b : bool)
  | JInt (z : Z)
  | JFloat (x : float)
  | JStr (s : string)
  | JList (l : list json)
  | JDict (d : list (string * json)).

(** A value as Python code sees it: data, or a method bound to a datum. *)
Inductive pyval : Type :=
  | PData (j : json)
  | PMethod (self : json) (name : string).

Module Py.

Fixpoint lookup (k : string) (d : list (string * json)) : option json :=
  match d with
  | [] => None
  | (k', v) :: r => if String.eqb k k' then Some v else lookup k r
  end.

(** [v[k]] for a string key [k]. *)
Definition getitem (v : json) (k : string) : result json :=
  match v with
  | JDict d =>
      match lookup k d with
      | Some x => Ok x
      | None => Raise KeyError
      end
  | _ => Raise TypeError
  end.

Fixpoint chars (s : string) : list json :=
  match s with
  | EmptyString => []
  | String c r => JStr (String c EmptyString) :: chars r
  end.

(** The elements [for x in v] runs through. *)
Definition iter (v : json) : result (list json) :=
  match v with
  | JList l => Ok l
  | JDict d => Ok (map (fun kv => JStr (fst kv)) d)
  | JStr s => Ok (chars s)
  | _ => Raise TypeError
  end.

(** The integer a [bool] or [int] stands for in arithmetic. *)
Definition as_int (v : json) : option Z :=
  match v with
  | JInt z => Some z
  | JBool b => Some (if b then 1 else 0)
  | _ => None
  end.

(** [a + b] *)
Definition add (a b : json) : result json :=
  match a, b with
  | JFloat x, JFloat y => Ok (JFloat (Float.add x y))
  | JFloat x, (JInt _ | JBool _) =>
      y ← int_to_float (default 0 (as_int b)); Ok (JFloat (Float.add x y))
  | (JInt _ | JBool _), JFloat y =>
      x ← int_to_float (default 0 (as_int a)); Ok (JFloat (Float.add x y))
  | (JInt _ | JBool _), (JInt _ | JBool _) =>
      Ok (JInt (default 0 (as_int a) + default 0 (as_int b)))
  | JStr s, JStr t => Ok (JStr (s ++ t))
  | JList l, JList m => Ok (JList (l ++ m))
  | _, _ => Raise TypeError
  end.

(** [a <= x] and [a >= x] for a float [x]. *)
Definition le_float (a : json) (x : float) : result bool :=
  match a with
  | JFloat y => Ok (Float.leb y x)
  | JInt _ | JBool _ =>
      Ok match Float.compare_Z (default 0 (as_int a)) x with
         | Some Lt | Some Eq => true
         | _ => false
         end
  | _ => Raise TypeError
  end.

Definition ge_float (a : json) (x : float) : result bool :=
  match a with
  | JFloat y => Ok (Float.geb y x)
  | JInt _ | JBool _ =>
      Ok match Float.compare_Z (default 0 (as_int a)) x with
         | Some Gt | Some Eq => true
         | _ => false
         end
  | _ => Raise TypeError
  end.

Definition as_str (v : json) : result string :=
  match v with
  | JStr s => Ok s
  | _ => Raise TypeError
  end.

Fixpoint mapM {A B} (f : A -> result B) (l : list A) : result (list B) :=
  match l with
  | [] => Ok []
  | a :: r => b ← f a; bs ← mapM f r; Ok (b :: bs)
  end.

(** [sep.join(items)]: every item must be a [str]. *)
Definition join (sep : string) (items : list json) : result string :=
  strs ← mapM as_str items; Ok (Str.join sep strs).

(** The public methods of the types [json.load] produces, as of CPython
    3.12.  Names with double underscores are left out. *)
Definition methods (v : json) : list string :=
  match v with
  | JNull => []
  | JBool _ | JInt _ =>
      ["as_integer_ratio"; "bit_count"; "bit_length"; "conjugate";
       "from_bytes"; "is_integer"; "to_bytes"]
  | JFloat _ =>
      ["as_integer_ratio"; "conjugate"; "fromhex"; "hex"; "is_integer"]
  | JStr _ =>
      ["capitalize"; "casefold"; "center"; "count"; "encode"; "endswith";
       "expandtabs"; "find"; "format"; "format_map"; "index"; "isalnum";
       "isalpha"; "isascii"; "isdecimal"; "isdigit"; "isidentifier";
       "islower"; "isnumeric"; "isprintable"; "isspace"; "istitle";
       "isupper"; "join"; "ljust"; "lower"; "lstrip"; "maketrans";
       "partition"; "removeprefix"; "removesuffix"; "replace"; "rfind";
       "rindex"; "rjust"; "rpartition"; "rsplit"; "rstrip"; "split";
       "splitlines"; "startswith"; "strip"; "swapcase"; "title";
       "translate"; "upper"; "zfill"]
  | JList _ =>
      ["append"; "clear"; "copy"; "count"; "extend"; "index"; "insert";
       "pop"; "remove"; "reverse"; "sort"]
  | JDict _ =>
      ["clear"; "copy"; "fromkeys"; "get"; "items"; "keys"; "pop";
       "popitem"; "setdefault"; "update"; "values"]
  end.

(** The data attributes of the numeric types. *)
Definition data_attribute (v : json) (name : string) : option json :=
  match v with
  | JInt _ | JBool _ =>
      let z := default 0 (as_int v) in
      if String.eqb name "real" || String.eqb name "numerator" then Some (JInt z)
      else if String.eqb name "imag" then Some (JInt 0)
      else if String.eqb name "denominator" then Some (JInt 1)
      else None
  | JFloat x =>
      if String.eqb name "real" then Some v
      else if String.eqb name "imag" then Some (JFloat (S754_zero false))
      else None
  | _ => None
  end.

(** [v.name]: these types carry no instance attributes, so a name that
    is neither a method nor a data attribute of the type raises
    [AttributeError]; a key of a [dict] is not an attribute. *)
Definition getattr (v : json) (name : string) : result pyval :=
  match data_attribute v name with
  | Some x => Ok (PData x)
  | None =>
      if existsb (String.eqb name) (methods v) then Ok (PMethod v name)
      else Raise AttributeError
  end.

End Py.

(** ** The transcript source and the records it returns *)

(** [Snippet], main.py lines 11-15; also the fields of a snippet of the
    transcript API. *)
Record Snippet : Type := {
  text : string;
  start : float;
  duration : float
}.

(** What [YouTubeTranscriptApi().fetch] returns. *)
Module Api.
Record FetchedTranscript : Type := {
  video_id : string;
  language : string;
  language_code : string;
  is_generated : bool;
  snippets : list Snippet
}.
End Api.

(** ** The world: files, standard output and the transcript service *)

Record World : Type := {
  files : gmap string json;      (* path of a file, and the document in it *)
  dirs : gset string;            (* directories that exist *)
  stdout : list string;          (* lines printed so far *)
  youtube : string -> result Api.FetchedTranscript;  (* the remote service *)
  requests : list string         (* video ids requested from the service *)
}.

Definition M (A : Type) : Type := World -> result A * World.

#[global] Instance M_ret : MRet M := fun A a w => (Ok a, w).

#[global] Instance M_bind : MBind M := fun A B k m w =>
  match m w with
  | (Ok a, w') => k a w'
  | (Raise e, w') => (Raise e, w')
  end.

Module IO.

Definition raise {A} (e : exn) : M A := fun w => (Raise e, w).

(** Runs [m] and hands its outcome, value or exception, to the caller:
    the body of a [try]. *)
Definition try {A} (m : M A) : M (result A) := fun w =>
  let '(r, w') := m w in (Ok r, w').

Definition lift {A} (r : result A) : M A := fun w => (r, w).

Definition print (line : string) : M unit := fun w =>
  (Ok tt, {| files := files w; dirs := dirs w; stdout := stdout w ++ [line];
             youtube := youtube w; requests := requests w |}).

(** [Path(p).exists()] *)
Definition path_exists (p : string) : M bool := fun w =>
  (Ok (bool_decide (is_Some (files w !! p))), w).

(** [open(p, "r")] and [json.load]. *)
Definition read_json (p : string) : M json := fun w =>
  match files w !! p with
  | Some doc => (Ok doc, w)
  | None => (Raise FileNotFoundError, w)
  end.

(** [open(p, "w")] and [json.dump], for a path whose directory exists:
    the write succeeds (see the conventions above). *)
Definition write_json (p : string) (doc : json) : M unit := fun w =>
  (Ok tt, {| files := <[p := doc]> (files w); dirs := dirs w; stdout := stdout w;
             youtube := youtube w; requests := requests w |}).

(** [Path(p).mkdir(exist_ok=True)], where [p] is a directory already or
    can be created: the call succeeds (see the conventions above). *)
Definition mkdir (p : string) : M unit := fun w =>
  (Ok tt, {| files := files w; dirs := {[p]} ∪ dirs w; stdout := stdout w;
             youtube := youtube w; requests := requests w |}).

(** [YouTubeTranscriptApi().fetch(video_id)]: one request to the
    service. *)
Definition fetch (vid : string) : M Api.FetchedTranscript := fun w =>
  (youtube w vid,
   {| files := files w; dirs := dirs w; stdout := stdout w;
      youtube := youtube w; requests := requests w ++ [vid] |}).

End IO.

(** ** The program *)

(** [~/.segscript/{video_id}.json] *)
Definition cache_path (video_id : string) : string :=
  "~/.segscript/" ++ video_id ++ ".json".

Definition snippet_dict (snippet : Snippet) : json :=
  JDict [("text", JStr (text snippet));
         ("start", JFloat (start snippet));
         ("duration", JFloat (duration snippet))].

(** The accumulation of main.py lines 71-74. *)
Definition raw_transcript_of (snippets : list Snippet) : string :=
  fold_left (fun raw_transcript snippet => (raw_transcript ++ " ") ++ text snippet)
            snippets "".

(** [transcript_dict], main.py lines 76-86. *)
Definition transcript_dict (transcript : Api.FetchedTranscript) : json :=
  JDict [("video_id", JStr (Api.video_id transcript));
         ("language", JStr (Api.language transcript));
         ("language_code", JStr (Api.language_code transcript));
         ("is_generated", JBool (Api.is_generated transcript));
         ("snippets", JList (map snippet_dict (Api.snippets transcript)));
         ("transcript", JStr (raw_transcript_of (Api.snippets transcript)))].

(** [save_transcript], main.py lines 50-92. *)
Definition save_transcript (video_id : string) : M Z :=
  fetched ← IO.try (IO.fetch video_id);
  match fetched with
  | Raise YouTubeTranscriptApiException => mret 1
  | Raise e => IO.raise e
  | Ok transcript =>
      _ ← IO.mkdir "~/.segscript";
      let output_path := cache_path video_id in
      _ ← IO.write_json output_path (transcript_dict transcript);
      mret 0
  end.

(** The body of the [try] of [query_transcript], lines 126-128. *)
Definition parse_time_range (time_range : string) : result (float * float) :=
  match Str.split ";" time_range with
  | [start_time_str; end_time_str] =>
      start_seconds ← parse_time_to_seconds start_time_str;
      end_seconds ← parse_time_to_seconds end_time_str;
      Ok (start_seconds, end_seconds)
  | _ => Raise ValueError
  end.

(** The loop of lines 133-140; [filtered_snippets] is the list built so
    far. *)
Fixpoint filter_snippets (snippets : list json) (start_seconds end_seconds : float)
    (filtered_snippets : list json) : result (list json) :=
  match snippets with
  | [] => Ok filtered_snippets
  | snippet :: rest =>
      snippet_start ← Py.getitem snippet "start";
      snippet_duration ← Py.getitem snippet "duration";
      snippet_end ← Py.add snippet_start snippet_duration;
      starts_before ← Py.le_float snippet_start end_seconds;
      included ← (if starts_before : bool
                  then Py.ge_float snippet_end start_seconds
                  else Ok false);
      filter_snippets rest start_seconds end_seconds
        (if included : bool then filtered_snippets ++ [snippet] else filtered_snippets)
  end.

(** Lines 133-145: the range query on the loaded [snippets]. *)
Definition range_query (snippets : json) (start_seconds end_seconds : float)
    : result string :=
  items ← Py.iter snippets;
  filtered_snippets ← filter_snippets items start_seconds end_seconds [];
  texts ← Py.mapM (fun snippet => Py.getitem snippet "text") filtered_snippets;
  Py.join " " texts.

Definition fetch_error : string := "Error: Failed to fetch transcript!".

Definition range_error : string :=
  "Error: Invalid time range format. Use 'start_time;end_time' (e.g., '10:00;20:00')".

(** Lines 115-145 of [query_transcript]: what runs once the file is
    there. *)
Definition query_loaded (transcript_file time_range : string) : M json :=
  transcript_data ← IO.read_json transcript_file;
  snippets ← IO.lift (Py.getitem transcript_data "snippets");
  if String.eqb time_range "" then
    IO.lift (Py.getitem transcript_data "transcript")
  else
    match parse_time_range time_range with
    | Raise ValueError => mret (JStr range_error)
    | Raise e => IO.raise e
    | Ok (start_seconds, end_seconds) =>
        result_text ← IO.lift (range_query snippets start_seconds end_seconds);
        mret (JStr result_text)
    end.

(** [query_transcript], main.py lines 95-145. *)
Definition query_transcript (video_id time_range : string) : M json :=
  let transcript_file := cache_path video_id in
  present ← IO.path_exists transcript_file;
  if present : bool then query_loaded transcript_file time_range
  else
    _ ← IO.print ("Transcript for video " ++ video_id ++ " not found. Fetching...");
    success ← save_transcript video_id;
    if negb (success =? 0) then mret (JStr fetch_error)
    else query_loaded transcript_file time_range.

(** [get_raw_transcripts], main.py lines 148-167; [None] is [PData JNull]. *)
Definition get_raw_transcripts (video_id : string) : M pyval :=
  let transcript_path := cache_path video_id in
  loaded ← IO.try (transcript_data ← IO.read_json transcript_path;
                   IO.lift (Py.getattr transcript_data "transcript"));
  match loaded with
  | Ok raw_transcript => mret raw_transcript
  | Raise FileNotFoundError =>
      _ ← IO.print ("The transcript for video id: " ++ video_id ++ " does not exist");
      mret (PData JNull)
  | Raise e => IO.raise e
  end.

(** ** Vocabulary of the specification *)

(** A computation fails when it yields no value. *)
Definition fails {A} (r : result A) : Prop := forall a, r <> Ok a.

(** The result is a finite float of rational value [q]. *)
Definition returns_value (r : result float) (q : Q) : Prop :=
  exists x, r = Ok x /\ Float.value x = Some q.

(** Numeric parsing of the part at index [i]: the last part is the
    seconds, read by [float]; the parts before it are read by [int]. *)
Definition part_fails (parts : list string) (i : nat) : Prop :=
  exists p, parts !! i = Some p /\
    if (S i =? length parts)%nat then fails (py_float p) else fails (py_int p).

(** A time string the specification calls malformed: the number of its
    colon-separated parts is neither 2 nor 3, or a part fails numeric
    parsing. *)
Definition malformed_timecode (time_str : string) : Prop :=
  let parts := Str.split ":" time_str in
  (length parts <> 2%nat /\ length parts <> 3%nat) \/ exists i, part_fails parts i.

(** A long run of digits: a one followed by [n] zeros. *)
Definition one_and_zeros (n : nat) : string := String "1" (Str.repeat "0" n).

(** ** Vocabulary of the range query and of the cache *)

(** The overlap test of the specification: the closed intervals
    [[f.start, f.start + f.duration]] and [[start_seconds, end_seconds]]
    meet. *)
Definition overlaps (start_seconds end_seconds : float) (f : Snippet) : bool :=
  Float.leb (start f) end_seconds &&
  Float.geb (Float.add (start f) (duration f)) start_seconds.

(** The specification's result: the texts of the overlapping fragments, in
    sequence order, joined by one space. *)
Definition overlapping_text (frags : list Snippet) (start_seconds end_seconds : float)
    : string :=
  Str.join " " (map text (List.filter (overlaps start_seconds end_seconds) frags)).

(** The accumulation the specification describes: a space before every
    text, the first included. *)
Fixpoint space_prefixed (texts : list string) : string :=
  match texts with
  | [] => ""
  | t :: rest => " " ++ t ++ space_prefixed rest
  end.

(** A range string the specification calls malformed: it is not two
    time strings separated by one semicolon, or one of the two is
    malformed. *)
Definition malformed_range (time_range : string) : Prop :=
  match Str.split ";" time_range with
  | [start_time_str; end_time_str] =>
      malformed_timecode start_time_str \/ malformed_timecode end_time_str
  | _ => True
  end.

(** The part of a range string's start that can overflow. *)
Definition start_overflows (time_range : string) : Prop :=
  match Str.split ";" time_range with
  | [start_time_str; _] => parse_time_to_seconds start_time_str = Raise OverflowError
  | _ => False
  end.

(** What lines 118-145 of [query_transcript] make of the loaded document
    and the range string. *)
Definition loaded_answer (transcript_data : json) (time_range : string) : result json :=
  snippets ← Py.getitem transcript_data "snippets";
  if String.eqb time_range "" then Py.getitem transcript_data "transcript"
  else
    match parse_time_range time_range with
    | Raise ValueError => Ok (JStr range_error)
    | Raise e => Raise e
    | Ok (start_seconds, end_seconds) =>
        result_text ← range_query snippets start_seconds end_seconds;
        Ok (JStr result_text)
    end.

(** ** Sample data *)

Definition sample_snippets : list Snippet :=
  [{| text := "hello"; start := Float.of_Z 0; duration := Float.of_Z 5 |};
   {| text := "world"; start := Float.of_Z 4; duration := Float.of_Z 3 |};
   {| text := "bye"; start := Float.of_Z 20; duration := Float.of_Z 2 |}].

Definition sample_transcript : Api.FetchedTranscript :=
  {| Api.video_id := "dQw4w9WgXcQ"; Api.language := "English";
     Api.language_code := "en"; Api.is_generated := false;
     Api.snippets := sample_snippets |}.

(** A service that knows one video. *)
Definition sample_service (video_id : string) : result Api.FetchedTranscript :=
  if String.eqb video_id "dQw4w9WgXcQ" then Ok sample_transcript
  else Raise YouTubeTranscriptApiException.

Definition fresh_world : World :=
  {| files := ∅; dirs := ∅; stdout := []; youtube := sample_service; requests := [] |}.

Definition cached_world : World :=
  {| files := {[cache_path "dQw4w9WgXcQ" := transcript_dict sample_transcript]};
     dirs := {["~/.segscript"]}; stdout := [];
     youtube := sample_service; requests := [] |}.

(** A cached document whose full text was edited and no longer matches
    its fragments. *)
Definition edited_world : World :=
  {| files := {[cache_path "dQw4w9WgXcQ" :=
                  JDict [("snippets", JList (map snippet_dict sample_snippets));
                         ("transcript", JStr "edited by hand")]]};
     dirs := {["~/.segscript"]}; stdout := [];
     youtube := sample_service; requests := [] |}.

(** A world without network: every request fails below the API, with
    an exception that is not a [YouTubeTranscriptApiException]. *)
Definition offline_world : World :=
  {| files := ∅; dirs := ∅; stdout := [];
     youtube := fun _ => Raise ConnectionError; requests := [] |}.

(** The line [query_transcript] prints before it fetches. *)
Definition not_found_line (video_id : string) : string :=
  "Transcript for video " ++ video_id ++ " not found. Fetching...".

Definition late_fragments : list Snippet :=
  [{| text := "late"; start := Float.of_Z 100; duration := Float.of_Z 5 |};
   {| text := "later"; start := Float.of_Z 200; duration := Float.of_Z 1 |}].

(** ** The interactive program *)

(** The process as [main] sees it: the world, and the lines still to be
    read from standard input. *)
Record Terminal : Type := {
  world : World;
  stdin : list string
}.

(** How [main] ends: it returns, an exception leaves it uncaught, or
    [input] meets the end of standard input ([EOFError]). *)
Inductive ending : Type :=
  | Returned
  | Uncaught (e : exn)
  | EndOfInput.

(** A step of [main] goes on with a value or ends the function. *)
Inductive flow (A : Type) : Type :=
  | Next (a : A)
  | Stop (how : ending).
Arguments Next {A} a.
Arguments Stop {A} how.

Definition T (A : Type) : Type := Terminal -> flow A * Terminal.

#[global] Instance T_ret : MRet T := fun A a t => (Next a, t).

#[global] Instance T_bind : MBind T := fun A B k m t =>
  match m t with
  | (Next a, t') => k a t'
  | (Stop how, t') => (Stop how, t')
  end.

Module Term.

(** A computation on the world, run inside [main]; an exception it
    raises is not caught there. *)
Definition run {A} (m : M A) : T A := fun t =>
  match m (world t) with
  | (Ok a, w) => (Next a, {| world := w; stdin := stdin t |})
  | (Raise e, w) => (Stop (Uncaught e), {| world := w; stdin := stdin t |})
  end.

(** [input(prompt)]: the prompt is written to standard output, where it
    is recorded like a printed line, and the next line of standard input
    is read. *)
Definition input (prompt : string) : T string := fun t =>
  let w := snd (IO.print prompt (world t)) in
  match stdin t with
  | line :: rest => (Next line, {| world := w; stdin := rest |})
  | [] => (Stop EndOfInput, {| world := w; stdin := [] |})
  end.

(** [return] *)
Definition leave {A} : T A := fun t => (Stop Returned, t).

End Term.

Definition newline : string := String "010" EmptyString.

Section Main.

(** [str(v)], the text [print] and an f-string write for a value; on a
    [str] it is the string itself. *)
Variable py_str : pyval -> string.

(** [main], main.py lines 170-206. *)
Definition main : T unit :=
  video_id ← Term.input "Enter YouTube video ID (the 11-character code in the URL): ";
  let transcript_file := cache_path video_id in
  present ← Term.run (IO.path_exists transcript_file);
  _ ← (if present : bool then
         _ ← Term.run (IO.print ("Transcript for video " ++ video_id ++
                                 " already exists. Loading from file..."));
         transcript_data ← Term.run (IO.read_json transcript_file);
         loaded_id ← Term.run (IO.lift (Py.getitem transcript_data "video_id"));
         Term.run (IO.print ("Loaded transcript for video: " ++ py_str (PData loaded_id)))
       else
         _ ← Term.run (IO.print ("Fetching transcript for video " ++ video_id ++ "..."));
         success ← Term.run (save_transcript video_id);
         if success =? 0 then Term.run (IO.print "Transcript saved successfully.")
         else
           _ ← Term.run (IO.print "YouTube video ID incorrect or transcript unavailable!");
           Term.leave);
  _ ← Term.run (IO.print (newline ++ "Options:"));
  _ ← Term.run (IO.print "1. Get full transcript");
  _ ← Term.run (IO.print "2. Get transcript within a time range");
  choice ← Term.input "Enter your choice (1 or 2): ";
  if String.eqb choice "1" then
    let transcript_text := video_id in
    transcript_text ← Term.run (get_raw_transcripts video_id);
    _ ← Term.run (IO.print (newline ++ "Full transcript:"));
    Term.run (IO.print (py_str transcript_text))
  else if String.eqb choice "2" then
    time_range ← Term.input "Enter time range (e.g., '10:00;20:00'): ";
    transcript_text ← Term.run (query_transcript video_id time_range);
    _ ← Term.run (IO.print (newline ++ "Transcript from " ++ time_range ++ ":"));
    Term.run (IO.print (py_str (PData transcript_text)))
  else
    Term.run (IO.print "Invalid choice!").

(** The run of the script: [main()] called at top level. *)
Definition run_main (t : Terminal) : ending * Terminal :=
  match main t with
  | (Next _, t') => (Returned, t')
  | (Stop how, t') => (how, t')
  end.

End Main.

(** What [main] has printed by the time it shows the menu for a cached
    video, and for a video it has just fetched. *)
Definition menu : list string :=
  [newline ++ "Options:"; "1. Get full transcript";
   "2. Get transcript within a time range"; "Enter your choice (1 or 2): "].

Definition id_prompt : string :=
  "Enter YouTube video ID (the 11-character code in the URL): ".

Definition range_prompt : string := "Enter time range (e.g., '10:00;20:00'): ".

Definition cached_greeting (py_str : pyval -> string) (video_id : string)
    (loaded_id : json) : list string :=
  [id_prompt;
   "Transcript for video " ++ video_id ++ " already exists. Loading from file...";
   "Loaded transcript for video: " ++ py_str (PData loaded_id)].

Definition fetched_greeting (video_id : string) : list string :=
  [id_prompt; "Fetching transcript for video " ++ video_id ++ "...";
   "Transcript saved successfully."].

Definition range_header (time_range : string) : string :=
  newline ++ "Transcript from " ++ time_range ++ ":".

(** The world after some more lines were written to standard output. *)
Definition printed (w : World) (lines : list string) : World :=
  {| files := files w; dirs := dirs w; stdout := stdout w ++ lines;
     youtube := youtube w; requests := requests w |}.

(** The world after [save_transcript] fetched and stored a transcript. *)
Definition stored (w : World) (video_id : string) (transcript : Api.FetchedTranscript)
    : World :=
  {| files := <[cache_path video_id := transcript_dict transcript]> (files w);
     dirs := {["~/.segscript"]} ∪ dirs w; stdout := stdout w;
     youtube := youtube w; requests := requests w ++ [video_id] |}.

(** A stand-in for [str] that is right on strings. *)
Definition sample_str (v : pyval) : string :=
  match v with
  | PData (JStr s) => s
  | PData JNull => "None"
  | _ => "<object>"
  end.

(** Dicts of a fragment with one entry missing. *)
Definition untexted_dict (snippet : Snippet) : json :=
  JDict [("start", JFloat (start snippet));
         ("duration", JFloat (duration snippet))].

Definition unstarted_dict (snippet : Snippet) : json :=
  JDict [("text", JStr (text snippet));
         ("duration", JFloat (duration snippet))].

(** ** The builtins on sample strings *)

Example py_int_examples :
  map py_int ["10"; " 1_0 "; "-1"; "+5"; "007"] = [Ok 10; Ok 10; Ok (-1); Ok 5; Ok 7] /\
  Forall (fun s => py_int s = Raise ValueError)
         ["1__0"; "_1"; "1_"; ""; " "; "- 1"; "1.5"; "0x10"; "1 2"; "abc"].
Proof.
  split; [reflexivity|]. repeat constructor.
Qed.

Example py_float_examples :
  map py_float ["0"; "-0"; "inf"; "-Infinity"; "NaN"; "1e400"; "1e-400"] =
    [Ok (S754_zero false); Ok (S754_zero true); Ok (S754_infinity false);
     Ok (S754_infinity true); Ok S754_nan; Ok (S754_infinity false);
     Ok (S754_zero false)] /\
  returns_value (py_float " 2.5 ") (5 # 2) /\
  returns_value (py_float "1_0.5") (21 # 2) /\
  returns_value (py_float "1e3") (1000 # 1) /\
  returns_value (py_float ".5") (1 # 2) /\
  returns_value (py_float "0.1") (3602879701896397 # 36028797018963968) /\
  Forall (fun s => py_float s = Raise ValueError)
         ["."; "1e"; "1_e5"; "1.5.2"; "0x10"; "--1"; "infin"; ""; "  "; "1 0"].
Proof.
  split; [vm_compute; reflexivity|].
  do 5 (split; [eexists; split; [vm_compute; reflexivity | reflexivity]|]).
  repeat constructor.
Qed.

(** ** The builtins fail with [ValueError] only *)

Lemma py_int_raise s e : py_int s = Raise e -> e = ValueError.
Proof.
  unfold py_int.
  destruct (Str.take_sign (Str.lstrip s)) as [neg body].
  assert (Hscan : match scan_int body false 0 0 with
                  | Some (n, v, rest) =>
                      if (n =? 0)%nat then Raise ValueError
                      else if negb (Str.all_space rest) then Raise ValueError
                      else if (int_max_str_digits <? n)%nat then Raise ValueError
                      else Ok (if neg then - v else v)
                  | None => Raise ValueError
                  end = Raise e -> e = ValueError).
  { destruct (scan_int body false 0 0) as [[[n v] rest]|]; [|congruence].
    destruct (n =? 0)%nat; [congruence|].
    destruct (negb (Str.all_space rest)); [congruence|].
    destruct (int_max_str_digits <? n)%nat; congruence. }
  destruct body as [|c r]; [exact Hscan|].
  destruct (Ascii.eqb c "_") eqn:Hc.
  - apply Ascii.eqb_eq in Hc. subst c. congruence.
  - destruct c as [[] [] [] [] [] [] [] []]; try exact Hscan. discriminate Hc.
Qed.

Lemma py_float_raise s e : py_float s = Raise e -> e = ValueError.
Proof.
  unfold py_float.
  destruct (if Str.contains "_" s then drop_underscores s "000" else Some s)
    as [s1|]; [|congruence].
  destruct (Str.strip s1) as [|c s2]; [congruence|].
  destruct (Str.take_sign (String c s2)) as [neg body].
  destruct (parse_decimal neg body); [congruence|].
  destruct (parse_inf_or_nan neg body); congruence.
Qed.

Lemma fails_raise {A} (r : result A) : fails r -> exists e, r = Raise e.
Proof. destruct r as [a|e]; [intros H; destruct (H a eq_refl) | eauto]. Qed.

Lemma py_int_fails s : fails (py_int s) -> py_int s = Raise ValueError.
Proof.
  intros [e He]%fails_raise. rewrite He. f_equal. eapply py_int_raise, He.
Qed.

Lemma py_float_fails s : fails (py_float s) -> py_float s = Raise ValueError.
Proof.
  intros [e He]%fails_raise. rewrite He. f_equal. eapply py_float_raise, He.
Qed.

Lemma int_add_float_raise z x e : int_add_float z x = Raise e -> e = OverflowError.
Proof.
  unfold int_add_float, int_to_float.
  destruct (Float.of_Z_exp z 0); simpl; congruence.
Qed.

(** ** Integers below [2^53] convert to floats exactly *)

Section IntToFloat.

Lemma digits2_size (m : positive) : digits2_pos m = Pos.size m.
Proof. induction m as [m IH|m IH|]; simpl; congruence. Qed.

Lemma digits2_shift (m p : positive) :
  digits2_pos (Pos.iter xO m p) = (digits2_pos m + p)%positive.
Proof.
  induction p as [|p IH] using Pos.peano_ind.
  - simpl. lia.
  - rewrite Pos.iter_succ. simpl. rewrite IH. lia.
Qed.

Lemma digits2_small (m : positive) : Zpos m < 2 ^ 53 -> Zpos (digits2_pos m) <= 53.
Proof.
  intros H. rewrite digits2_size.
  assert (Hle := Pos.size_le m).
  apply Pos2Z.pos_le_pos in Hle. rewrite Pos2Z.inj_pow in Hle.
  change (Z.pos m~0) with (2 * Z.pos m) in Hle.
  destruct (Z.le_gt_cases (Z.pos (Pos.size m)) 53) as [|Hgt]; [assumption|].
  assert (2 ^ 54 <= 2 ^ Z.pos (Pos.size m)) by (apply Z.pow_le_mono_r; lia).
  change (2 ^ 54) with (2 * 2 ^ 53) in *. lia.
Qed.

Lemma round_exact (s : bool) (mz : positive) (ez : Z) :
  Zpos (digits2_pos mz) = 53 -> -1074 <= ez <= 971 ->
  binary_round_aux Float.prec Float.emax s (Zpos mz) ez loc_Exact = S754_finite s mz ez.
Proof.
  intros Hd He.
  assert (Hshr : shr_fexp Float.prec Float.emax (Zpos mz) ez loc_Exact =
                 ({| shr_m := Zpos mz; shr_r := false; shr_s := false |}, ez)).
  { unfold shr_fexp, fexp, emin, Zdigits2, Float.prec, Float.emax. rewrite Hd.
    replace (Z.max (53 + ez - 53) (3 - 1024 - 53) - ez) with 0 by lia.
    reflexivity. }
  unfold binary_round_aux. rewrite Hshr. cbn [shr_m loc_of_shr_record round_nearest_even].
  rewrite Hshr. cbn [shr_m].
  unfold Float.prec, Float.emax.
  destruct (Z.leb_spec ez (1024 - 53)); [reflexivity | lia].
Qed.

Lemma shift_value (m p : positive) :
  Zpos (Pos.iter xO m p) = Zpos m * 2 ^ Zpos p.
Proof.
  induction p as [|p IH] using Pos.peano_ind.
  - simpl. lia.
  - rewrite Pos.iter_succ, Pos2Z.inj_succ, Z.pow_succ_r by lia.
    rewrite Pos2Z.inj_xO, IH. lia.
Qed.

Lemma round_small (s : bool) (m : positive) :
  Zpos m < 2 ^ 53 ->
  exists mz ez, binary_round Float.prec Float.emax s m 0 = S754_finite s mz ez /\
                -52 <= ez <= 0 /\ Zpos mz = Zpos m * 2 ^ (- ez).
Proof.
  intros H. pose proof (digits2_small m H) as Hd.
  unfold binary_round, fexp, emin, Float.prec, Float.emax.
  replace (Z.max (Z.pos (digits2_pos m) + 0 - 53) (3 - 1024 - 53))
    with (Z.pos (digits2_pos m) - 53) by lia.
  unfold shl_align.
  destruct (Z.pos (digits2_pos m) - 53 - 0) as [|p|p] eqn:Hp; [|lia|].
  - exists m, 0. split; [|split; [lia|simpl; lia]].
    apply (round_exact s m 0); lia.
  - exists (Pos.iter xO m p), (Z.pos (digits2_pos m) - 53).
    split; [|split; [lia|]].
    + apply round_exact; [|lia]. rewrite digits2_shift. lia.
    + replace (- (Z.pos (digits2_pos m) - 53)) with (Z.pos p) by lia.
      apply shift_value.
Qed.

Lemma finite_value (s : bool) (m mz : positive) (ez : Z) :
  -52 <= ez <= 0 -> Zpos mz = Zpos m * 2 ^ (- ez) ->
  exists q, Float.value (S754_finite s mz ez) = Some q /\
            (q == inject_Z (if s then Zneg m else Zpos m))%Q.
Proof.
  intros He Hm. unfold Float.value. eexists. split; [reflexivity|].
  rewrite Qred_correct.
  assert (Hq : ((if 0 <=? ez then inject_Z (Z.pos mz * 2 ^ ez)
                 else Z.pos mz # Z.to_pos (2 ^ (- ez))) == inject_Z (Zpos m))%Q).
  { destruct (Z.leb_spec 0 ez).
    - replace ez with 0 in * by lia. rewrite Hm. simpl. unfold Qeq. simpl. lia.
    - unfold Qeq. simpl Qnum. simpl Qden.
      rewrite Z2Pos.id by (apply Z.pow_pos_nonneg; lia). lia. }
  destruct s; [|exact Hq]. rewrite Hq. reflexivity.
Qed.

Lemma int_to_float_small (z : Z) :
  Z.abs z < 2 ^ 53 ->
  exists y q, int_to_float z = Ok y /\ Float.value y = Some q /\ (q == inject_Z z)%Q.
Proof.
  intros H. unfold int_to_float, Float.of_Z_exp, binary_normalize.
  destruct z as [|m|m].
  - exists (S754_zero false), 0%Q. repeat split.
  - destruct (round_small false m H) as (mz & ez & -> & He & Hm).
    destruct (finite_value false m mz ez He Hm) as (q & Hv & Hq). eauto.
  - destruct (round_small true m H) as (mz & ez & -> & He & Hm).
    destruct (finite_value true m mz ez He Hm) as (q & Hv & Hq). eauto.
Qed.

End IntToFloat.

(** ** The time-code parser: results *)

Section ParseTime.

Local Ltac parts_cases s :=
  unfold parse_time_to_seconds;
  destruct (Str.split ":" s) as [|p1 [|p2 [|p3 [|p4 ps]]]]; simpl.

Lemma parse_two_parts time_str minutes seconds :
  Str.split ":" time_str = [minutes; seconds] ->
  parse_time_to_seconds time_str =
    (m ← py_int minutes; s ← py_float seconds; int_add_float (m * 60) s).
Proof. intros H. unfold parse_time_to_seconds. now rewrite H. Qed.

Lemma parse_three_parts time_str hours minutes seconds :
  Str.split ":" time_str = [hours; minutes; seconds] ->
  parse_time_to_seconds time_str =
    (h ← py_int hours; m ← py_int minutes; s ← py_float seconds;
     int_add_float (h * 3600 + m * 60) s).
Proof. intros H. unfold parse_time_to_seconds. now rewrite H. Qed.

Local Ltac int_part p :=
  let H := fresh "H" in
  destruct (py_int p) eqn:H;
  [simpl | apply py_int_raise in H; subst; reflexivity].

Lemma parse_malformed time_str :
  malformed_timecode time_str -> parse_time_to_seconds time_str = Raise ValueError.
Proof.
  unfold malformed_timecode. parts_cases time_str; try reflexivity.
  - intros [[H _]|[i (p & Hp & Hi)]]; [congruence|].
    destruct i as [|[|i]]; simpl in *; try discriminate.
    + injection Hp as ->. now rewrite (py_int_fails _ Hi).
    + injection Hp as ->. rewrite (py_float_fails _ Hi).
      int_part p1. reflexivity.
  - intros [[_ H]|[i (p & Hp & Hi)]]; [congruence|].
    destruct i as [|[|[|i]]]; simpl in *; try discriminate.
    + injection Hp as ->. now rewrite (py_int_fails _ Hi).
    + injection Hp as ->. rewrite (py_int_fails _ Hi).
      int_part p1. reflexivity.
    + injection Hp as ->. rewrite (py_float_fails _ Hi).
      int_part p1. int_part p2. reflexivity.
Qed.

Lemma parse_value_error time_str :
  parse_time_to_seconds time_str = Raise ValueError -> malformed_timecode time_str.
Proof.
  unfold malformed_timecode. parts_cases time_str; intros H;
    try (left; split; discriminate).
  - right. destruct (py_int p1) as [m|e] eqn:H1.
    + destruct (py_float p2) as [x|e] eqn:H2.
      * apply int_add_float_raise in H. discriminate.
      * exists 1%nat, p2. split; [reflexivity|]. simpl. rewrite H2. discriminate.
    + exists 0%nat, p1. split; [reflexivity|]. simpl. rewrite H1. discriminate.
  - right. destruct (py_int p1) as [h|e] eqn:H1.
    + destruct (py_int p2) as [m|e] eqn:H2.
      * destruct (py_float p3) as [x|e] eqn:H3.
        -- apply int_add_float_raise in H. discriminate.
        -- exists 2%nat, p3. split; [reflexivity|]. simpl. rewrite H3. discriminate.
      * exists 1%nat, p2. split; [reflexivity|]. simpl. rewrite H2. discriminate.
    + exists 0%nat, p1. split; [reflexivity|]. simpl. rewrite H1. discriminate.
Qed.

End ParseTime.

(** C2, as the code has it: a string of two colon-separated numeric
    parts parses to [minutes * 60 + seconds], and one of three parts to
    [hours * 3600 + minutes * 60 + seconds], whenever the integer term
    converts to a float; when it is too large for a float the parser
    raises [OverflowError].  An integer term below [2^53] in magnitude
    always converts, and exactly.  The seconds may have a fraction, and
    minutes and hours are not range-checked: 10:00 is 600.0, 1:10:00 is
    4200.0, 0:00 is 0.0, 90:00 is 5400.0 and 01:02.5 is 62.5. *)
Theorem parse_time_formula :
  (forall time_str minutes seconds m x,
      Str.split ":" time_str = [minutes; seconds] ->
      py_int minutes = Ok m -> py_float seconds = Ok x ->
      (forall y, int_to_float (m * 60) = Ok y ->
                 parse_time_to_seconds time_str = Ok (Float.add y x)) /\
      (fails (int_to_float (m * 60)) ->
       parse_time_to_seconds time_str = Raise OverflowError)) /\
  (forall time_str hours minutes seconds h m x,
      Str.split ":" time_str = [hours; minutes; seconds] ->
      py_int hours = Ok h -> py_int minutes = Ok m -> py_float seconds = Ok x ->
      (forall y, int_to_float (h * 3600 + m * 60) = Ok y ->
                 parse_time_to_seconds time_str = Ok (Float.add y x)) /\
      (fails (int_to_float (h * 3600 + m * 60)) ->
       parse_time_to_seconds time_str = Raise OverflowError)) /\
  (forall z, Z.abs z < 2 ^ 53 ->
             exists y q, int_to_float z = Ok y /\
                         Float.value y = Some q /\ (q == inject_Z z)%Q) /\
  returns_value (parse_time_to_seconds "10:00") (600 # 1) /\
  returns_value (parse_time_to_seconds "1:10:00") (4200 # 1) /\
  returns_value (parse_time_to_seconds "0:00") (0 # 1) /\
  returns_value (parse_time_to_seconds "90:00") (5400 # 1) /\
  returns_value (parse_time_to_seconds "01:02.5") (125 # 2).
Proof.
  split; [|split; [|split; [exact int_to_float_small|]]].
  - intros time_str minutes seconds m x Hs Hm Hx.
    rewrite (parse_two_parts _ _ _ Hs), Hm, Hx. simpl.
    unfold int_add_float. split.
    + intros y Hy. now rewrite Hy.
    + intros [e He]%fails_raise. rewrite He. simpl. f_equal.
      unfold int_to_float in He. destruct (Float.of_Z_exp (m * 60) 0); congruence.
  - intros time_str hours minutes seconds h m x Hs Hh Hm Hx.
    rewrite (parse_three_parts _ _ _ _ Hs), Hh, Hm, Hx. simpl.
    unfold int_add_float. split.
    + intros y Hy. now rewrite Hy.
    + intros [e He]%fails_raise. rewrite He. simpl. f_equal.
      unfold int_to_float in He.
      destruct (Float.of_Z_exp (h * 3600 + m * 60) 0); congruence.
  - do 4 (split; [eexists; split; [vm_compute; reflexivity | reflexivity]|]).
    eexists; split; [vm_compute; reflexivity | reflexivity].
Qed.

Lemma parse_time_formula_witness :
  (Str.split ":" "10:00" = ["10"; "00"] /\
   py_int "10" = Ok 10 /\ py_float "00" = Ok (S754_zero false) /\
   int_to_float (10 * 60) = Ok (Float.of_Z 600) /\
   parse_time_to_seconds "10:00" = Ok (Float.add (Float.of_Z 600) (S754_zero false))) /\
  (Str.split ":" "1:10:01.5" = ["1"; "10"; "01.5"] /\
   py_int "1" = Ok 1 /\ py_int "10" = Ok 10 /\
   py_float "01.5" = Ok (Float.of_Z_exp 3 (-1)) /\
   int_to_float (1 * 3600 + 10 * 60) = Ok (Float.of_Z 4200) /\
   parse_time_to_seconds "1:10:01.5" =
     Ok (Float.add (Float.of_Z 4200) (Float.of_Z_exp 3 (-1)))) /\
  (Str.split ":" (one_and_zeros 400 ++ ":0") = [one_and_zeros 400; "0"] /\
   py_int (one_and_zeros 400) = Ok (10 ^ 400) /\
   py_float "0" = Ok (S754_zero false) /\
   fails (int_to_float (10 ^ 400 * 60)) /\
   parse_time_to_seconds (one_and_zeros 400 ++ ":0") = Raise OverflowError) /\
  (Z.abs 5400 < 2 ^ 53 /\
   exists y q, int_to_float 5400 = Ok y /\
               Float.value y = Some q /\ (q == inject_Z 5400)%Q).
Proof.
  split; [|split; [|split]]; cycle 3.
  - assert (H : Z.abs 5400 < 2 ^ 53) by (vm_compute; reflexivity).
    split; [exact H|].
    exact (proj1 (proj2 (proj2 parse_time_formula)) 5400 H).
  - do 4 (split; [vm_compute; reflexivity|]).
    apply (proj1 (proj1 parse_time_formula "10:00" "10" "00" 10 (S754_zero false)
                    eq_refl eq_refl eq_refl)).
    vm_compute. reflexivity.
  - do 5 (split; [vm_compute; reflexivity|]).
    apply (proj1 (proj1 (proj2 parse_time_formula) "1:10:01.5" "1" "10" "01.5"
                    1 10 (Float.of_Z_exp 3 (-1)) eq_refl eq_refl eq_refl eq_refl)).
    vm_compute. reflexivity.
  - assert (Hs : Str.split ":" (one_and_zeros 400 ++ ":0") = [one_and_zeros 400; "0"])
      by (vm_compute; reflexivity).
    assert (Hi : py_int (one_and_zeros 400) = Ok (10 ^ 400))
      by (vm_compute; reflexivity).
    assert (Hf : fails (int_to_float (10 ^ 400 * 60)))
      by (intros a Ha; vm_compute in Ha; discriminate Ha).
    split; [exact Hs|]. split; [exact Hi|]. split; [reflexivity|]. split; [exact Hf|].
    exact (proj2 (proj1 parse_time_formula (one_and_zeros 400 ++ ":0")
                    (one_and_zeros 400) "0" (10 ^ 400) (S754_zero false)
                    Hs Hi eq_refl) Hf).
Defined.

(** C2 as stated fails for a minutes field beyond the float range: the
    parts of this string are an integer and a real, and the parser raises
    [OverflowError] instead of returning a number. *)
Lemma parse_time_overflow :
  Str.split ":" (one_and_zeros 400 ++ ":0") = [one_and_zeros 400; "0"] /\
  py_int (one_and_zeros 400) = Ok (10 ^ 400) /\
  py_float "0" = Ok (S754_zero false) /\
  parse_time_to_seconds (one_and_zeros 400 ++ ":0") = Raise OverflowError /\
  fails (parse_time_to_seconds (one_and_zeros 400 ++ ":0")).
Proof.
  do 4 (split; [vm_compute; reflexivity|]).
  intros y Hy. vm_compute in Hy. discriminate Hy.
Qed.

(** The largest integer that converts to a float, and the first that
    does not. *)
Example int_to_float_boundary :
  int_to_float (2 ^ 1024 - 2 ^ 970 - 1) = Ok (S754_finite false 9007199254740991 971) /\
  int_to_float (2 ^ 1024 - 2 ^ 970) = Raise OverflowError /\
  int_to_float (- (2 ^ 1024 - 2 ^ 970)) = Raise OverflowError.
Proof. do 2 (split; [vm_compute; reflexivity|]). vm_compute. reflexivity. Qed.

(** C3: a time string whose number of colon-separated parts is neither 2
    nor 3, or one of whose parts fails numeric parsing, makes the parser
    fail with [ValueError], the format error; so do "abc" and "1:2:3:4". *)
Theorem parse_time_format_error :
  (forall time_str, malformed_timecode time_str ->
                    parse_time_to_seconds time_str = Raise ValueError) /\
  parse_time_to_seconds "abc" = Raise ValueError /\
  parse_time_to_seconds "1:2:3:4" = Raise ValueError.
Proof.
  split; [exact parse_malformed|]. split; reflexivity.
Qed.

Lemma parse_time_format_error_witness :
  malformed_timecode "12:3x" /\ parse_time_to_seconds "12:3x" = Raise ValueError.
Proof.
  assert (H : malformed_timecode "12:3x").
  { right. exists 1%nat, "3x". split; [reflexivity|].
    intros a Ha. vm_compute in Ha. discriminate Ha. }
  split; [exact H | exact (proj1 parse_time_format_error "12:3x" H)].
Defined.

(** C10: the parser validates neither ranges nor signs.  It raises
    [ValueError] only for a malformed string, and returns a number for
    every integer minutes field (of any sign, below [2^53] in seconds)
    and every float seconds field; seconds of 60 or more and
    negative components are accepted, so 0:99 is 99.0, 0:99:99 is 6039.0
    and -1:30 is -30.0,
    and a parsed window can lie partly or wholly below zero. *)
Theorem parse_time_no_range_check :
  (forall time_str, parse_time_to_seconds time_str = Raise ValueError ->
                    malformed_timecode time_str) /\
  (forall time_str minutes seconds m x,
      Str.split ":" time_str = [minutes; seconds] ->
      py_int minutes = Ok m -> py_float seconds = Ok x ->
      Z.abs (m * 60) < 2 ^ 53 ->
      exists y, parse_time_to_seconds time_str = Ok y) /\
  returns_value (parse_time_to_seconds "0:99") (99 # 1) /\
  returns_value (parse_time_to_seconds "75:60") (4560 # 1) /\
  returns_value (parse_time_to_seconds "0:99:99") (6039 # 1) /\
  returns_value (parse_time_to_seconds "-1:30") (-30 # 1) /\
  (exists a b, parse_time_range "-2:00;-1:30" = Ok (a, b) /\
               Float.value a = Some (-120 # 1) /\ Float.value b = Some (-30 # 1)) /\
  (exists a b, parse_time_range "-1:30;1:00" = Ok (a, b) /\
               Float.value a = Some (-30 # 1) /\ Float.value b = Some (60 # 1)).
Proof.
  split; [exact parse_value_error|].
  split.
  { intros time_str minutes seconds m x Hs Hm Hx Hb.
    rewrite (parse_two_parts _ _ _ Hs), Hm, Hx. simpl. unfold int_add_float.
    destruct (int_to_float_small _ Hb) as (y & q & -> & _). simpl. eauto. }
  do 4 (split; [eexists; split; [vm_compute; reflexivity | reflexivity]|]).
  split; do 2 eexists; (split; [vm_compute; reflexivity | split; reflexivity]).
Qed.

Lemma parse_time_no_range_check_witness :
  (parse_time_to_seconds "1:2:3:4" = Raise ValueError /\ malformed_timecode "1:2:3:4") /\
  (Str.split ":" "-90:-75.5" = ["-90"; "-75.5"] /\
   py_int "-90" = Ok (-90) /\ py_float "-75.5" = Ok (Float.of_Z_exp (-151) (-1)) /\
   Z.abs (-90 * 60) < 2 ^ 53 /\
   exists y, parse_time_to_seconds "-90:-75.5" = Ok y).
Proof.
  split.
  - split; [reflexivity|].
    exact (proj1 parse_time_no_range_check "1:2:3:4" eq_refl).
  - do 3 (split; [vm_compute; reflexivity|]).
    assert (H : Z.abs (-90 * 60) < 2 ^ 53) by (vm_compute; reflexivity).
    split; [exact H|].
    exact (proj1 (proj2 parse_time_no_range_check) "-90:-75.5" "-90" "-75.5"
             (-90) (Float.of_Z_exp (-151) (-1)) eq_refl eq_refl eq_refl H).
Defined.

(** ** The range query on well-formed fragments *)

Section RangeQuery.
Variables start_seconds end_seconds : float.

Lemma filter_snippets_step (f : Snippet) rest acc :
  filter_snippets (snippet_dict f :: rest) start_seconds end_seconds acc =
  filter_snippets rest start_seconds end_seconds
    (if overlaps start_seconds end_seconds f then (acc ++ [snippet_dict f])%list else acc).
Proof.
  unfold overlaps. simpl.
  destruct (Float.leb (start f) end_seconds); simpl; [|reflexivity].
  now destruct (Float.geb (Float.add (start f) (duration f)) start_seconds).
Qed.

Lemma filter_snippets_dicts frags acc :
  filter_snippets (map snippet_dict frags) start_seconds end_seconds acc =
  Ok (acc ++ map snippet_dict (List.filter (overlaps start_seconds end_seconds) frags))%list.
Proof.
  revert acc. induction frags as [|f frags IH]; intros acc.
  - simpl. now rewrite app_nil_r.
  - change (map snippet_dict (f :: frags)) with (snippet_dict f :: map snippet_dict frags).
    rewrite filter_snippets_step, IH. simpl.
    destruct (overlaps start_seconds end_seconds f); [|reflexivity].
    simpl. now rewrite <- app_assoc.
Qed.

Lemma texts_of_dicts (l : list Snippet) :
  Py.mapM (fun snippet => Py.getitem snippet "text") (map snippet_dict l) =
  Ok (map (fun f => JStr (text f)) l).
Proof.
  induction l as [|f l IH]; [reflexivity|].
  simpl in *. now rewrite IH.
Qed.

Lemma join_strs sep (l : list Snippet) :
  Py.join sep (map (fun f => JStr (text f)) l) = Ok (Str.join sep (map text l)).
Proof.
  unfold Py.join.
  assert (H : Py.mapM Py.as_str (map (fun f => JStr (text f)) l) = Ok (map text l)).
  { induction l as [|f l IH]; [reflexivity|]. simpl in *. now rewrite IH. }
  now rewrite H.
Qed.

Lemma range_query_dicts frags :
  range_query (JList (map snippet_dict frags)) start_seconds end_seconds =
  Ok (overlapping_text frags start_seconds end_seconds).
Proof.
  unfold range_query, overlapping_text. simpl.
  rewrite filter_snippets_dicts. simpl.
  rewrite texts_of_dicts. simpl. apply join_strs.
Qed.

Lemma filter_none (frags : list Snippet) :
  (forall f, In f frags -> overlaps start_seconds end_seconds f = false) ->
  List.filter (overlaps start_seconds end_seconds) frags = [].
Proof.
  induction frags as [|f frags IH]; intros H; [reflexivity|].
  simpl. rewrite (H f (or_introl eq_refl)). apply IH.
  intros g Hg. apply H. now right.
Qed.

Lemma filter_sublist (frags : list Snippet) :
  sublist (List.filter (overlaps start_seconds end_seconds) frags) frags.
Proof.
  induction frags as [|f frags IH]; [constructor|].
  simpl. destruct (overlaps start_seconds end_seconds f); now constructor.
Qed.

End RangeQuery.

(** C1: on any fragment sequence and any window the range query returns
    the texts of exactly the fragments [f] with [f.start <= end_seconds]
    and [f.start + f.duration >= start_seconds], in their original order
    and joined by one space; an empty sequence, or a window that no
    fragment overlaps, gives the empty string. *)
Theorem range_query_overlap :
  forall (frags : list Snippet) (start_seconds end_seconds : float),
    let selected := List.filter (overlaps start_seconds end_seconds) frags in
    range_query (JList (map snippet_dict frags)) start_seconds end_seconds =
      Ok (Str.join " " (map text selected)) /\
    (forall f, In f selected <->
               In f frags /\
               Float.leb (start f) end_seconds = true /\
               Float.geb (Float.add (start f) (duration f)) start_seconds = true) /\
    sublist selected frags /\
    range_query (JList []) start_seconds end_seconds = Ok "" /\
    ((forall f, In f frags -> overlaps start_seconds end_seconds f = false) ->
     range_query (JList (map snippet_dict frags)) start_seconds end_seconds = Ok "").
Proof.
  intros frags s e selected. split; [apply range_query_dicts|].
  split.
  - intros f. unfold selected. rewrite filter_In. unfold overlaps.
    rewrite andb_true_iff. tauto.
  - split; [apply filter_sublist|]. split; [reflexivity|].
    intros H. rewrite range_query_dicts. unfold overlapping_text.
    now rewrite filter_none.
Qed.

Lemma range_query_overlap_witness :
  (forall f, In f late_fragments -> overlaps (Float.of_Z 0) (Float.of_Z 10) f = false) /\
  range_query (JList (map snippet_dict late_fragments)) (Float.of_Z 0) (Float.of_Z 10) = Ok "".
Proof.
  assert (H : forall f, In f late_fragments ->
                        overlaps (Float.of_Z 0) (Float.of_Z 10) f = false).
  { intros f [<-|[<-|[]]]; reflexivity. }
  split; [exact H|].
  exact (proj2 (proj2 (proj2 (proj2
           (range_query_overlap late_fragments (Float.of_Z 0) (Float.of_Z 10))))) H).
Defined.

(** ** Running the program *)

Section Run.

Local Ltac run :=
  unfold mbind, M_bind, mret, M_ret, IO.lift, IO.raise, IO.try, IO.print,
    IO.path_exists, IO.read_json, IO.write_json, IO.mkdir, IO.fetch; simpl.

(** A query on a file that is there reads it and changes nothing. *)
Lemma query_loaded_run p time_range w doc :
  files w !! p = Some doc ->
  query_loaded p time_range w = (loaded_answer doc time_range, w).
Proof.
  intros H. unfold query_loaded, loaded_answer. run. rewrite H.
  destruct (Py.getitem doc "snippets") as [sn|e]; simpl; [|reflexivity].
  destruct (String.eqb time_range "").
  - now destruct (Py.getitem doc "transcript").
  - destruct (parse_time_range time_range) as [[s e]|[]]; try reflexivity.
    simpl. now destruct (range_query sn s e).
Qed.

Lemma query_cached video_id time_range w doc :
  files w !! cache_path video_id = Some doc ->
  query_transcript video_id time_range w = (loaded_answer doc time_range, w).
Proof.
  intros H. unfold query_transcript. run. rewrite H.
  rewrite bool_decide_eq_true_2 by eauto.
  now apply query_loaded_run.
Qed.

(** A failed fetch: the request is made and nothing else changes. *)
Lemma save_failed video_id w e :
  youtube w video_id = Raise e ->
  save_transcript video_id w =
    (match e with YouTubeTranscriptApiException => Ok 1 | _ => Raise e end,
     {| files := files w; dirs := dirs w; stdout := stdout w;
        youtube := youtube w; requests := requests w ++ [video_id] |}).
Proof.
  intros H. unfold save_transcript. run. rewrite H. now destruct e.
Qed.

(** A successful fetch: the directory and the file are written. *)
Lemma save_fetched video_id w transcript :
  youtube w video_id = Ok transcript ->
  save_transcript video_id w =
    (Ok 0,
     {| files := <[cache_path video_id := transcript_dict transcript]> (files w);
        dirs := {["~/.segscript"]} ∪ dirs w; stdout := stdout w;
        youtube := youtube w; requests := requests w ++ [video_id] |}).
Proof.
  intros H. unfold save_transcript. run. now rewrite H.
Qed.

Lemma query_fetch_failed video_id time_range w e :
  files w !! cache_path video_id = None ->
  youtube w video_id = Raise e ->
  query_transcript video_id time_range w =
    (match e with
     | YouTubeTranscriptApiException => Ok (JStr fetch_error)
     | _ => Raise e
     end,
     {| files := files w; dirs := dirs w;
        stdout := stdout w ++
          ["Transcript for video " ++ video_id ++ " not found. Fetching..."];
        youtube := youtube w; requests := requests w ++ [video_id] |}).
Proof.
  intros Hf Hy. unfold query_transcript. run. rewrite Hf.
  rewrite bool_decide_eq_false_2 by (intros [? ?]; discriminate).
  match goal with |- context [save_transcript video_id ?w0] =>
    rewrite (save_failed video_id w0 e Hy) end.
  now destruct e.
Qed.

Lemma query_fetched video_id time_range w transcript :
  files w !! cache_path video_id = None ->
  youtube w video_id = Ok transcript ->
  query_transcript video_id time_range w =
    (loaded_answer (transcript_dict transcript) time_range,
     {| files := <[cache_path video_id := transcript_dict transcript]> (files w);
        dirs := {["~/.segscript"]} ∪ dirs w;
        stdout := stdout w ++
          ["Transcript for video " ++ video_id ++ " not found. Fetching..."];
        youtube := youtube w; requests := requests w ++ [video_id] |}).
Proof.
  intros Hf Hy. unfold query_transcript. run. rewrite Hf.
  rewrite bool_decide_eq_false_2 by (intros [? ?]; discriminate).
  match goal with |- context [save_transcript video_id ?w0] =>
    rewrite (save_fetched video_id w0 transcript Hy) end.
  simpl. apply query_loaded_run. simpl. apply lookup_insert_eq.
Qed.

(** No type that [json.load] produces has an attribute [transcript]. *)
Lemma no_transcript_attribute doc : Py.getattr doc "transcript" = Raise AttributeError.
Proof. destruct doc; reflexivity. Qed.

Lemma get_raw_cached video_id w doc :
  files w !! cache_path video_id = Some doc ->
  get_raw_transcripts video_id w = (Raise AttributeError, w).
Proof.
  intros H. unfold get_raw_transcripts. run. rewrite H. simpl.
  now rewrite no_transcript_attribute.
Qed.

Lemma get_raw_absent video_id w :
  files w !! cache_path video_id = None ->
  get_raw_transcripts video_id w =
    (Ok (PData JNull),
     {| files := files w; dirs := dirs w;
        stdout := stdout w ++
          ["The transcript for video id: " ++ video_id ++ " does not exist"];
        youtube := youtube w; requests := requests w |}).
Proof.
  intros H. unfold get_raw_transcripts. run. now rewrite H.
Qed.

End Run.

Lemma cached_world_file :
  files cached_world !! cache_path "dQw4w9WgXcQ" = Some (transcript_dict sample_transcript).
Proof. apply lookup_singleton_eq. Qed.

(** The scenario of the specification: the window from 3 s to 6 s selects
    the first two fragments. *)
Example query_hello_world :
  query_transcript "dQw4w9WgXcQ" "0:03;0:06" cached_world =
    (Ok (JStr "hello world"), cached_world).
Proof. rewrite (query_cached _ _ _ _ cached_world_file). reflexivity. Qed.

Example query_fetches_then_answers :
  fst (query_transcript "dQw4w9WgXcQ" "0:19;0:30" fresh_world) = Ok (JStr "bye").
Proof. rewrite (query_fetched _ _ _ sample_transcript); reflexivity. Qed.

(** ** The full text and the cache *)

(** C4: with an empty range string, the query on a cached transcript
    returns the stored [transcript] field itself, whatever the stored
    fragments are, and leaves the world as it was; after an acquisition
    this is the very string [save_transcript] persisted. *)
Theorem query_without_range_returns_stored :
  (forall (w : World) (video_id : string) (doc snippets full_text : json),
      files w !! cache_path video_id = Some doc ->
      Py.getitem doc "snippets" = Ok snippets ->
      Py.getitem doc "transcript" = Ok full_text ->
      query_transcript video_id "" w = (Ok full_text, w)) /\
  (forall (w w' : World) (video_id : string) (transcript : Api.FetchedTranscript),
      youtube w video_id = Ok transcript ->
      save_transcript video_id w = (Ok 0, w') ->
      query_transcript video_id "" w' =
        (Ok (JStr (raw_transcript_of (Api.snippets transcript))), w')).
Proof.
  assert (H : forall w video_id doc sn full_text,
             files w !! cache_path video_id = Some doc ->
             Py.getitem doc "snippets" = Ok sn ->
             Py.getitem doc "transcript" = Ok full_text ->
             query_transcript video_id "" w = (Ok full_text, w)).
  { intros w video_id doc sn full_text Hf Hs Ht.
    rewrite (query_cached _ _ _ _ Hf). unfold loaded_answer.
    rewrite Hs. simpl. now rewrite Ht. }
  split; [exact H|].
  intros w w' video_id transcript Hy Hs.
  rewrite (save_fetched _ _ _ Hy) in Hs. injection Hs as <-.
  eapply H; [apply lookup_insert_eq | reflexivity | reflexivity].
Qed.

Lemma query_without_range_returns_stored_witness :
  query_transcript "dQw4w9WgXcQ" "" edited_world =
    (Ok (JStr "edited by hand"), edited_world) /\
  (youtube fresh_world "dQw4w9WgXcQ" = Ok sample_transcript /\
   query_transcript "dQw4w9WgXcQ" "" (snd (save_transcript "dQw4w9WgXcQ" fresh_world)) =
     (Ok (JStr " hello world bye"), snd (save_transcript "dQw4w9WgXcQ" fresh_world))).
Proof.
  split.
  - apply (proj1 query_without_range_returns_stored edited_world "dQw4w9WgXcQ"
             (JDict [("snippets", JList (map snippet_dict sample_snippets));
                     ("transcript", JStr "edited by hand")])
             (JList (map snippet_dict sample_snippets)) (JStr "edited by hand")).
    + vm_compute. reflexivity.
    + reflexivity.
    + reflexivity.
  - split; [reflexivity|].
    apply (proj2 query_without_range_returns_stored fresh_world
             (snd (save_transcript "dQw4w9WgXcQ" fresh_world))
             "dQw4w9WgXcQ" sample_transcript).
    + reflexivity.
    + reflexivity.
Defined.

Section Strings.

Lemma str_app_cons (x : ascii) (a b : string) : String x a ++ b = String x (a ++ b).
Proof. reflexivity. Qed.

Lemma str_app_assoc (a b c : string) : (a ++ b) ++ c = a ++ (b ++ c).
Proof.
  induction a as [|x a IH]; [reflexivity|].
  now rewrite !str_app_cons, IH.
Qed.

Lemma str_app_nil_r (a : string) : a ++ "" = a.
Proof.
  induction a as [|x a IH]; [reflexivity|]. now rewrite str_app_cons, IH.
Qed.

Lemma raw_transcript_from (l : list Snippet) (acc : string) :
  fold_left (fun raw_transcript snippet => (raw_transcript ++ " ") ++ text snippet) l acc
  = acc ++ space_prefixed (map text l).
Proof.
  revert acc. induction l as [|f l IH]; intros acc; simpl.
  - now rewrite str_app_nil_r.
  - rewrite IH. now rewrite !str_app_assoc.
Qed.

Lemma space_prefixed_join (t : string) (rest : list string) :
  space_prefixed (t :: rest) = " " ++ Str.join " " (t :: rest).
Proof.
  revert t. induction rest as [|u rest IH]; intros t.
  - simpl. now rewrite str_app_nil_r.
  - change (space_prefixed (t :: u :: rest))
      with (" " ++ t ++ space_prefixed (u :: rest)).
    rewrite IH. reflexivity.
Qed.

Lemma not_own_tail (c : ascii) (s : string) : String c s <> s.
Proof.
  intros H. apply (f_equal String.length) in H. simpl in H. lia.
Qed.

End Strings.

(** C7: the full text that [save_transcript] persists is the
    accumulation with a space before every fragment text, the first
    included; for a non-empty fragment sequence it is a space followed by
    the plain space-join of the texts, and so differs from that join. *)
Theorem saved_full_text_leading_space :
  (forall w video_id transcript,
      youtube w video_id = Ok transcript ->
      exists w',
        save_transcript video_id w = (Ok 0, w') /\
        files w' !! cache_path video_id = Some (transcript_dict transcript) /\
        Py.getitem (transcript_dict transcript) "transcript" =
          Ok (JStr (space_prefixed (map text (Api.snippets transcript))))) /\
  (forall f l,
      space_prefixed (map text (f :: l)) = " " ++ Str.join " " (map text (f :: l)) /\
      space_prefixed (map text (f :: l)) <> Str.join " " (map text (f :: l))).
Proof.
  split.
  - intros w video_id transcript H. eexists. split; [apply save_fetched, H|].
    split; [apply lookup_insert_eq|].
    simpl. unfold raw_transcript_of. now rewrite raw_transcript_from.
  - intros f l. simpl map. rewrite space_prefixed_join. split; [reflexivity|].
    apply not_own_tail.
Qed.

Lemma saved_full_text_leading_space_witness :
  youtube fresh_world "dQw4w9WgXcQ" = Ok sample_transcript /\
  exists w',
    save_transcript "dQw4w9WgXcQ" fresh_world = (Ok 0, w') /\
    files w' !! cache_path "dQw4w9WgXcQ" = Some (transcript_dict sample_transcript) /\
    Py.getitem (transcript_dict sample_transcript) "transcript" =
      Ok (JStr (space_prefixed (map text (Api.snippets sample_transcript)))).
Proof.
  split; [reflexivity|].
  apply (proj1 saved_full_text_leading_space fresh_world "dQw4w9WgXcQ" sample_transcript).
  reflexivity.
Defined.

Example sample_full_text :
  Py.getitem (transcript_dict sample_transcript) "transcript" = Ok (JStr " hello world bye").
Proof. reflexivity. Qed.

(** What the code keeps of C8: when the file of a video is there, a
    query makes no request to the service, writes nothing and answers
    from the stored document; when
    the service fails, [save_transcript] and the query that called it
    create no file and no directory, and an API failure is reported as
    status 1 and as the fetch error text. *)
Theorem ensure_available_writes_nothing :
  (forall w video_id time_range doc,
      files w !! cache_path video_id = Some doc ->
      query_transcript video_id time_range w = (loaded_answer doc time_range, w)) /\
  (forall w video_id e r w',
      youtube w video_id = Raise e ->
      save_transcript video_id w = (r, w') ->
      files w' = files w /\ dirs w' = dirs w /\
      (e = YouTubeTranscriptApiException -> r = Ok 1)) /\
  (forall w video_id time_range e r w',
      files w !! cache_path video_id = None ->
      youtube w video_id = Raise e ->
      query_transcript video_id time_range w = (r, w') ->
      files w' = files w /\ dirs w' = dirs w /\
      (e = YouTubeTranscriptApiException -> r = Ok (JStr fetch_error))).
Proof.
  split; [|split].
  - intros w video_id time_range doc H. now apply query_cached.
  - intros w video_id e r w' Hy Hs. rewrite (save_failed _ _ _ Hy) in Hs.
    injection Hs as <- <-. simpl. repeat split. now intros ->.
  - intros w video_id time_range e r w' Hf Hy Hq.
    rewrite (query_fetch_failed _ _ _ _ Hf Hy) in Hq.
    injection Hq as <- <-. simpl. repeat split. now intros ->.
Qed.

Lemma ensure_available_writes_nothing_witness :
  (files cached_world !! cache_path "dQw4w9WgXcQ" = Some (transcript_dict sample_transcript) /\
   query_transcript "dQw4w9WgXcQ" "0:03;0:06" cached_world =
     (loaded_answer (transcript_dict sample_transcript) "0:03;0:06", cached_world)) /\
  (youtube fresh_world "unknown" = Raise YouTubeTranscriptApiException /\
   files (snd (save_transcript "unknown" fresh_world)) = files fresh_world /\
   dirs (snd (save_transcript "unknown" fresh_world)) = dirs fresh_world /\
   fst (save_transcript "unknown" fresh_world) = Ok 1) /\
  (files fresh_world !! cache_path "unknown" = None /\
   files (snd (query_transcript "unknown" "0:03;0:06" fresh_world)) = files fresh_world /\
   dirs (snd (query_transcript "unknown" "0:03;0:06" fresh_world)) = dirs fresh_world /\
   fst (query_transcript "unknown" "0:03;0:06" fresh_world) = Ok (JStr fetch_error)).
Proof.
  split; [|split].
  - split; [vm_compute; reflexivity|].
    apply (proj1 ensure_available_writes_nothing). vm_compute. reflexivity.
  - split; [reflexivity|].
    destruct (proj1 (proj2 ensure_available_writes_nothing)
                fresh_world "unknown" YouTubeTranscriptApiException
                (fst (save_transcript "unknown" fresh_world))
                (snd (save_transcript "unknown" fresh_world))
                eq_refl eq_refl) as (Hf & Hd & Hr).
    split; [exact Hf|]. split; [exact Hd|]. exact (Hr eq_refl).
  - split; [reflexivity|].
    destruct (proj2 (proj2 ensure_available_writes_nothing)
                fresh_world "unknown" "0:03;0:06" YouTubeTranscriptApiException
                (fst (query_transcript "unknown" "0:03;0:06" fresh_world))
                (snd (query_transcript "unknown" "0:03;0:06" fresh_world))
                eq_refl eq_refl eq_refl) as (Hf & Hd & Hr).
    split; [exact Hf|]. split; [exact Hd|]. exact (Hr eq_refl).
Defined.

(** C8, at a fetch that fails below the API: the service raises an
    exception that is not a [YouTubeTranscriptApiException], and
    [save_transcript] does not return the status 1 of its docstring but
    lets the exception through; so does the query of the uncached video,
    which returns no error text, and [main] ends with the exception
    uncaught.  Nothing is written on the way. *)
Theorem fetch_failure_escapes :
  files offline_world !! cache_path "dQw4w9WgXcQ" = None /\
  youtube offline_world "dQw4w9WgXcQ" = Raise ConnectionError /\
  fst (save_transcript "dQw4w9WgXcQ" offline_world) = Raise ConnectionError /\
  fst (query_transcript "dQw4w9WgXcQ" "0:03;0:06" offline_world) = Raise ConnectionError /\
  files (snd (query_transcript "dQw4w9WgXcQ" "0:03;0:06" offline_world)) =
    files offline_world /\
  dirs (snd (query_transcript "dQw4w9WgXcQ" "0:03;0:06" offline_world)) =
    dirs offline_world /\
  fst (run_main sample_str {| world := offline_world; stdin := ["dQw4w9WgXcQ"; "2"] |}) =
    Uncaught ConnectionError.
Proof.
  assert (Hf : files offline_world !! cache_path "dQw4w9WgXcQ" = None)
    by (vm_compute; reflexivity).
  assert (Hy : youtube offline_world "dQw4w9WgXcQ" = Raise ConnectionError)
    by reflexivity.
  split; [exact Hf|]. split; [exact Hy|].
  rewrite (save_failed _ _ _ Hy), (query_fetch_failed _ _ _ _ Hf Hy).
  do 4 (split; [reflexivity|]). vm_compute. reflexivity.
Qed.

(** ** Determinism of the range query *)

Lemma parsed_range_not_empty time_range win :
  parse_time_range time_range = Ok win -> String.eqb time_range "" = false.
Proof.
  intros H. destruct (String.eqb_spec time_range "") as [->|]; [discriminate H | reflexivity].
Qed.

Lemma loaded_answer_range doc snippets time_range start_seconds end_seconds :
  Py.getitem doc "snippets" = Ok snippets ->
  parse_time_range time_range = Ok (start_seconds, end_seconds) ->
  loaded_answer doc time_range =
    (result_text ← range_query snippets start_seconds end_seconds; Ok (JStr result_text)).
Proof.
  intros Hs Hp. unfold loaded_answer. rewrite Hs. simpl.
  now rewrite (parsed_range_not_empty _ _ Hp), Hp.
Qed.

(** The range query as [query_transcript] reaches it: on a cached
    transcript and a range string that parses, the answer is the text of
    the overlapping fragments. *)
Lemma query_transcript_range w video_id transcript time_range start_seconds end_seconds :
  files w !! cache_path video_id = Some (transcript_dict transcript) ->
  parse_time_range time_range = Ok (start_seconds, end_seconds) ->
  query_transcript video_id time_range w =
    (Ok (JStr (overlapping_text (Api.snippets transcript) start_seconds end_seconds)), w).
Proof.
  intros Hf Hp. rewrite (query_cached _ _ _ _ Hf).
  rewrite (loaded_answer_range (transcript_dict transcript)
             (JList (map snippet_dict (Api.snippets transcript))) _ _ _ eq_refl Hp).
  now rewrite range_query_dicts.
Qed.

(** C9: the answer to a range query is a function of the fragments and
    the window alone.  Two queries whose cached documents hold the same
    fragments and whose range strings denote the same window return the
    same result, whatever the rest of the world is; and a query leaves the
    world as it found it, so that repeating it repeats the result. *)
Theorem range_query_deterministic :
  forall (w1 w2 : World) (id1 id2 : string) (doc1 doc2 snippets : json)
         (range1 range2 : string) (start_seconds end_seconds : float),
    files w1 !! cache_path id1 = Some doc1 ->
    files w2 !! cache_path id2 = Some doc2 ->
    Py.getitem doc1 "snippets" = Ok snippets ->
    Py.getitem doc2 "snippets" = Ok snippets ->
    parse_time_range range1 = Ok (start_seconds, end_seconds) ->
    parse_time_range range2 = Ok (start_seconds, end_seconds) ->
    fst (query_transcript id1 range1 w1) = fst (query_transcript id2 range2 w2) /\
    fst (query_transcript id1 range1 w1) =
      (result_text ← range_query snippets start_seconds end_seconds;
       Ok (JStr result_text)) /\
    query_transcript id1 range1 (snd (query_transcript id1 range1 w1)) =
      query_transcript id1 range1 w1.
Proof.
  intros w1 w2 id1 id2 doc1 doc2 sn r1 r2 s e Hf1 Hf2 Hs1 Hs2 Hp1 Hp2.
  rewrite (query_cached _ _ _ _ Hf1), (query_cached _ _ _ _ Hf2). simpl.
  rewrite (loaded_answer_range _ _ _ _ _ Hs1 Hp1), (loaded_answer_range _ _ _ _ _ Hs2 Hp2).
  split; [reflexivity|]. split; [reflexivity|].
  rewrite (query_cached _ _ _ _ Hf1). now rewrite (loaded_answer_range _ _ _ _ _ Hs1 Hp1).
Qed.

Lemma range_query_deterministic_witness :
  fst (query_transcript "dQw4w9WgXcQ" "0:03;0:06" cached_world) =
    fst (query_transcript "dQw4w9WgXcQ" "00:3.0;0:00:6" edited_world) /\
  fst (query_transcript "dQw4w9WgXcQ" "0:03;0:06" cached_world) =
    (result_text ← range_query (JList (map snippet_dict sample_snippets))
                     (Float.of_Z 3) (Float.of_Z 6);
     Ok (JStr result_text)) /\
  query_transcript "dQw4w9WgXcQ" "0:03;0:06"
      (snd (query_transcript "dQw4w9WgXcQ" "0:03;0:06" cached_world)) =
    query_transcript "dQw4w9WgXcQ" "0:03;0:06" cached_world.
Proof.
  apply (range_query_deterministic cached_world edited_world
           "dQw4w9WgXcQ" "dQw4w9WgXcQ"
           (transcript_dict sample_transcript)
           (JDict [("snippets", JList (map snippet_dict sample_snippets));
                   ("transcript", JStr "edited by hand")])
           (JList (map snippet_dict sample_snippets))
           "0:03;0:06" "00:3.0;0:00:6" (Float.of_Z 3) (Float.of_Z 6));
    vm_compute; reflexivity.
Defined.

(** ** Loading the raw transcript *)

(** C6, at a cached video: the file is there and holds the full text,
    the query path returns it, and [get_raw_transcripts] raises
    [AttributeError] instead of returning it. *)
Theorem get_raw_transcripts_cached_raises :
  files cached_world !! cache_path "dQw4w9WgXcQ" =
    Some (transcript_dict sample_transcript) /\
  query_transcript "dQw4w9WgXcQ" "" cached_world =
    (Ok (JStr " hello world bye"), cached_world) /\
  get_raw_transcripts "dQw4w9WgXcQ" cached_world = (Raise AttributeError, cached_world).
Proof.
  split; [exact cached_world_file|]. split.
  - rewrite (query_cached _ _ _ _ cached_world_file). reflexivity.
  - exact (get_raw_cached _ _ _ cached_world_file).
Qed.

Example get_raw_transcripts_absent :
  fst (get_raw_transcripts "unknown" fresh_world) = Ok (PData JNull).
Proof. rewrite get_raw_absent; reflexivity. Qed.

(** ** Malformed range strings *)

Lemma parse_time_raise time_str e :
  parse_time_to_seconds time_str = Raise e -> e = ValueError \/ e = OverflowError.
Proof.
  unfold parse_time_to_seconds.
  destruct (Str.split ":" time_str) as [|p1 [|p2 [|p3 [|p4 ps]]]]; simpl;
    try (intros [= <-]; now left).
  - destruct (py_int p1) eqn:H1; simpl; [|intros [= <-]; left; eapply py_int_raise, H1].
    destruct (py_float p2) eqn:H2; simpl; [|intros [= <-]; left; eapply py_float_raise, H2].
    intros H. right. eapply int_add_float_raise, H.
  - destruct (py_int p1) eqn:H1; simpl; [|intros [= <-]; left; eapply py_int_raise, H1].
    destruct (py_int p2) eqn:H2; simpl; [|intros [= <-]; left; eapply py_int_raise, H2].
    destruct (py_float p3) eqn:H3; simpl; [|intros [= <-]; left; eapply py_float_raise, H3].
    intros H. right. eapply int_add_float_raise, H.
Qed.

(** A malformed range string whose start does not overflow is answered
    with the error text, and the world is unchanged. *)
Lemma query_malformed_range_handled w video_id doc snippets time_range :
  files w !! cache_path video_id = Some doc ->
  Py.getitem doc "snippets" = Ok snippets ->
  time_range <> "" ->
  malformed_range time_range ->
  ~ start_overflows time_range ->
  query_transcript video_id time_range w = (Ok (JStr range_error), w).
Proof.
  intros Hf Hs Hne Hm Hov. rewrite (query_cached _ _ _ _ Hf). f_equal.
  unfold loaded_answer. rewrite Hs. simpl.
  destruct (String.eqb_spec time_range "") as [|_]; [contradiction|].
  unfold malformed_range, start_overflows, parse_time_range in *.
  destruct (Str.split ";" time_range) as [|a [|b [|c l]]]; try reflexivity.
  destruct (parse_time_to_seconds a) as [x|e] eqn:Ha; simpl.
  - destruct Hm as [Hm|Hm].
    + apply parse_malformed in Hm. congruence.
    + now rewrite (parse_malformed _ Hm).
  - destruct (parse_time_raise _ _ Ha) as [->| ->]; [reflexivity | contradiction].
Qed.

(** C5, at a malformed range string whose start overflows: the end part
    "abc" is no time string, and the query on the cached video raises
    [OverflowError] instead of returning the error text. *)
Theorem query_overflow_escapes :
  malformed_range (one_and_zeros 400 ++ ":00;abc") /\
  query_transcript "dQw4w9WgXcQ" (one_and_zeros 400 ++ ":00;abc") cached_world =
    (Raise OverflowError, cached_world).
Proof.
  split.
  - unfold malformed_range.
    replace (Str.split ";" (one_and_zeros 400 ++ ":00;abc"))
      with [one_and_zeros 400 ++ ":00"; "abc"] by (vm_compute; reflexivity).
    right. left. split; discriminate.
  - rewrite (query_cached _ _ _ _ cached_world_file).
    apply (f_equal (fun r => (r, cached_world))). vm_compute. reflexivity.
Qed.

Example query_malformed_examples :
  query_transcript "dQw4w9WgXcQ" "10:00" cached_world = (Ok (JStr range_error), cached_world) /\
  query_transcript "dQw4w9WgXcQ" "abc;def" cached_world = (Ok (JStr range_error), cached_world) /\
  query_transcript "dQw4w9WgXcQ" "1:00;2:00;3:00" cached_world =
    (Ok (JStr range_error), cached_world).
Proof.
  rewrite !(query_cached _ _ _ _ cached_world_file). repeat split.
Qed.

(** ** The cache across queries *)

(** X1: the first query of a video that is not cached, that the
    service delivers and that [save_transcript] manages to store (it
    returns 0) makes one request, leaves the fetched document in the
    cache and answers from it; any later query of that video makes no
    request and answers from the fetched fragments. *)
Theorem first_query_fills_cache :
  forall (w ws : World) (video_id range1 range2 : string)
         (transcript : Api.FetchedTranscript) (start_seconds end_seconds : float),
    files w !! cache_path video_id = None ->
    youtube w video_id = Ok transcript ->
    save_transcript video_id (printed w [not_found_line video_id]) = (Ok 0, ws) ->
    parse_time_range range2 = Ok (start_seconds, end_seconds) ->
    query_transcript video_id range1 w =
      (loaded_answer (transcript_dict transcript) range1, ws) /\
    requests ws = (requests w ++ [video_id])%list /\
    files ws !! cache_path video_id = Some (transcript_dict transcript) /\
    query_transcript video_id range2 ws =
      (Ok (JStr (overlapping_text (Api.snippets transcript) start_seconds end_seconds)),
       ws).
Proof.
  intros w ws video_id range1 range2 transcript s e Hf Hy Hs Hp.
  rewrite (save_fetched video_id (printed w [not_found_line video_id]) transcript Hy)
    in Hs.
  injection Hs as <-.
  assert (Hl : <[cache_path video_id := transcript_dict transcript]> (files w)
                 !! cache_path video_id = Some (transcript_dict transcript))
    by apply lookup_insert_eq.
  split; [exact (query_fetched _ _ _ _ Hf Hy)|].
  split; [reflexivity|]. split; [exact Hl|].
  now apply query_transcript_range.
Qed.

Lemma first_query_fills_cache_witness :
  files fresh_world !! cache_path "dQw4w9WgXcQ" = None /\
  youtube fresh_world "dQw4w9WgXcQ" = Ok sample_transcript /\
  save_transcript "dQw4w9WgXcQ" (printed fresh_world [not_found_line "dQw4w9WgXcQ"]) =
    (Ok 0, snd (query_transcript "dQw4w9WgXcQ" "" fresh_world)) /\
  parse_time_range "0:19;0:30" = Ok (Float.of_Z 19, Float.of_Z 30) /\
  query_transcript "dQw4w9WgXcQ" "" fresh_world =
    (loaded_answer (transcript_dict sample_transcript) "",
     snd (query_transcript "dQw4w9WgXcQ" "" fresh_world)) /\
  requests (snd (query_transcript "dQw4w9WgXcQ" "" fresh_world)) =
    (requests fresh_world ++ ["dQw4w9WgXcQ"])%list /\
  files (snd (query_transcript "dQw4w9WgXcQ" "" fresh_world)) !! cache_path "dQw4w9WgXcQ" =
    Some (transcript_dict sample_transcript) /\
  query_transcript "dQw4w9WgXcQ" "0:19;0:30"
      (snd (query_transcript "dQw4w9WgXcQ" "" fresh_world)) =
    (Ok (JStr (overlapping_text sample_snippets (Float.of_Z 19) (Float.of_Z 30))),
     snd (query_transcript "dQw4w9WgXcQ" "" fresh_world)).
Proof.
  assert (Hf : files fresh_world !! cache_path "dQw4w9WgXcQ" = None)
    by (vm_compute; reflexivity).
  assert (Hs : save_transcript "dQw4w9WgXcQ"
                 (printed fresh_world [not_found_line "dQw4w9WgXcQ"]) =
               (Ok 0, snd (query_transcript "dQw4w9WgXcQ" "" fresh_world)))
    by reflexivity.
  assert (Hp : parse_time_range "0:19;0:30" = Ok (Float.of_Z 19, Float.of_Z 30))
    by (vm_compute; reflexivity).
  split; [exact Hf|]. split; [reflexivity|]. split; [exact Hs|]. split; [exact Hp|].
  exact (first_query_fills_cache fresh_world
           (snd (query_transcript "dQw4w9WgXcQ" "" fresh_world))
           "dQw4w9WgXcQ" "" "0:19;0:30"
           sample_transcript (Float.of_Z 19) (Float.of_Z 30) Hf eq_refl Hs Hp).
Defined.



(** X3: a query never changes a file that exists: whatever the outcome,
    every document that was stored before is still stored, unchanged. *)
Theorem query_keeps_existing_files :
  forall (w : World) (video_id time_range p : string) (doc : json),
    files w !! p = Some doc ->
    files (snd (query_transcript video_id time_range w)) !! p = Some doc.
Proof.
  intros w video_id time_range p doc Hp.
  destruct (files w !! cache_path video_id) as [stored|] eqn:Hf.
  - now rewrite (query_cached _ _ _ _ Hf).
  - destruct (youtube w video_id) as [transcript|e] eqn:Hy.
    + rewrite (query_fetched _ _ _ _ Hf Hy). simpl.
      rewrite lookup_insert_ne; [exact Hp|]. intros <-. congruence.
    + now rewrite (query_fetch_failed _ _ _ _ Hf Hy).
Qed.

Lemma query_keeps_existing_files_witness :
  files edited_world !! cache_path "dQw4w9WgXcQ" =
    Some (JDict [("snippets", JList (map snippet_dict sample_snippets));
                 ("transcript", JStr "edited by hand")]) /\
  files (snd (query_transcript "another" "0:00;1:00" edited_world))
    !! cache_path "dQw4w9WgXcQ" =
    Some (JDict [("snippets", JList (map snippet_dict sample_snippets));
                 ("transcript", JStr "edited by hand")]).
Proof.
  assert (H : files edited_world !! cache_path "dQw4w9WgXcQ" =
              Some (JDict [("snippets", JList (map snippet_dict sample_snippets));
                           ("transcript", JStr "edited by hand")]))
    by (vm_compute; reflexivity).
  split; [exact H|].
  exact (query_keeps_existing_files edited_world "another" "0:00;1:00" _ _ H).
Defined.

(** ** Documents that are not what [save_transcript] writes *)

(** X4: the query reads the [snippets] entry before it looks at the
    range string: on a stored dict without that entry every query raises
    [KeyError], the query for the full text included, and on a stored
    value that is no dict every query raises [TypeError]. *)
Theorem query_needs_snippets_entry :
  forall (w : World) (video_id time_range : string) (doc : json),
    files w !! cache_path video_id = Some doc ->
    Py.getitem doc "snippets" = Raise KeyError \/
      (forall d, doc <> JDict d) ->
    query_transcript video_id time_range w =
      (Raise (match doc with JDict _ => KeyError | _ => TypeError end), w).
Proof.
  intros w video_id time_range doc Hf H.
  rewrite (query_cached _ _ _ _ Hf). unfold loaded_answer.
  destruct doc as [| | | | | |d]; try reflexivity.
  destruct H as [H|H]; [now rewrite H | now destruct (H d)].
Qed.

Lemma query_needs_snippets_entry_witness :
  query_transcript "v" "" {| files := {[cache_path "v" := JDict [("transcript", JStr "text")]]};
                             dirs := ∅; stdout := []; youtube := sample_service;
                             requests := [] |} =
    (Raise KeyError,
     {| files := {[cache_path "v" := JDict [("transcript", JStr "text")]]};
        dirs := ∅; stdout := []; youtube := sample_service; requests := [] |}).
Proof.
  apply (query_needs_snippets_entry _ "v" "" (JDict [("transcript", JStr "text")])).
  - vm_compute. reflexivity.
  - left. reflexivity.
Defined.

Lemma loaded_answer_malformed doc snippets time_range :
  Py.getitem doc "snippets" = Ok snippets ->
  time_range <> "" ->
  malformed_range time_range ->
  ~ start_overflows time_range ->
  loaded_answer doc time_range = Ok (JStr range_error).
Proof.
  intros Hs Hne Hm Hov. unfold loaded_answer. rewrite Hs. simpl.
  destruct (String.eqb_spec time_range "") as [|_]; [contradiction|].
  unfold malformed_range, start_overflows, parse_time_range in *.
  destruct (Str.split ";" time_range) as [|a [|b [|c l]]]; try reflexivity.
  destruct (parse_time_to_seconds a) as [x|e] eqn:Ha; simpl.
  - destruct Hm as [Hm|Hm].
    + apply parse_malformed in Hm. congruence.
    + now rewrite (parse_malformed _ Hm).
  - destruct (parse_time_raise _ _ Ha) as [->| ->]; [reflexivity | contradiction].
Qed.

(** X5: the range string is examined only after the transcript is
    there.  A malformed range string whose start does not overflow is
    answered with the error text, whatever the stored fragments are; and
    when the video is not cached, the service delivers it and
    [save_transcript] manages to store it (it returns 0), the transcript
    is fetched and stored first and then the same error text is
    returned. *)
Theorem malformed_range_is_reported :
  forall (w : World) (video_id time_range : string),
    time_range <> "" ->
    malformed_range time_range ->
    ~ start_overflows time_range ->
    (forall doc snippets,
        files w !! cache_path video_id = Some doc ->
        Py.getitem doc "snippets" = Ok snippets ->
        query_transcript video_id time_range w = (Ok (JStr range_error), w)) /\
    (forall transcript ws,
        files w !! cache_path video_id = None ->
        youtube w video_id = Ok transcript ->
        save_transcript video_id (printed w [not_found_line video_id]) = (Ok 0, ws) ->
        query_transcript video_id time_range w = (Ok (JStr range_error), ws) /\
        requests ws = (requests w ++ [video_id])%list /\
        files ws !! cache_path video_id = Some (transcript_dict transcript)).
Proof.
  intros w video_id time_range Hne Hm Hov. split.
  - intros doc sn Hf Hs. rewrite (query_cached _ _ _ _ Hf).
    now rewrite (loaded_answer_malformed _ _ _ Hs Hne Hm Hov).
  - intros transcript ws Hf Hy Hs.
    rewrite (save_fetched video_id (printed w [not_found_line video_id]) transcript Hy)
      in Hs.
    injection Hs as <-.
    split; [|split; [reflexivity | apply lookup_insert_eq]].
    rewrite (query_fetched _ _ _ _ Hf Hy).
    rewrite (loaded_answer_malformed (transcript_dict transcript)
               (JList (map snippet_dict (Api.snippets transcript))) time_range
               eq_refl Hne Hm Hov).
    reflexivity.
Qed.

Lemma malformed_range_is_reported_witness :
  "12:60;7pm" <> "" /\ malformed_range "12:60;7pm" /\ ~ start_overflows "12:60;7pm" /\
  (files cached_world !! cache_path "dQw4w9WgXcQ" = Some (transcript_dict sample_transcript) /\
   query_transcript "dQw4w9WgXcQ" "12:60;7pm" cached_world =
     (Ok (JStr range_error), cached_world)) /\
  (files fresh_world !! cache_path "dQw4w9WgXcQ" = None /\
   youtube fresh_world "dQw4w9WgXcQ" = Ok sample_transcript /\
   save_transcript "dQw4w9WgXcQ" (printed fresh_world [not_found_line "dQw4w9WgXcQ"]) =
     (Ok 0, snd (query_transcript "dQw4w9WgXcQ" "12:60;7pm" fresh_world)) /\
   query_transcript "dQw4w9WgXcQ" "12:60;7pm" fresh_world =
     (Ok (JStr range_error), snd (query_transcript "dQw4w9WgXcQ" "12:60;7pm" fresh_world)) /\
   requests (snd (query_transcript "dQw4w9WgXcQ" "12:60;7pm" fresh_world)) =
     (requests fresh_world ++ ["dQw4w9WgXcQ"])%list /\
   files (snd (query_transcript "dQw4w9WgXcQ" "12:60;7pm" fresh_world))
     !! cache_path "dQw4w9WgXcQ" = Some (transcript_dict sample_transcript)).
Proof.
  assert (Hne : "12:60;7pm" <> "") by discriminate.
  assert (Hm : malformed_range "12:60;7pm").
  { unfold malformed_range. simpl. right. left. split; discriminate. }
  assert (Hov : ~ start_overflows "12:60;7pm").
  { unfold start_overflows. simpl. intros H. vm_compute in H. discriminate H. }
  assert (Hc : files cached_world !! cache_path "dQw4w9WgXcQ" =
               Some (transcript_dict sample_transcript)) by (vm_compute; reflexivity).
  assert (Hf : files fresh_world !! cache_path "dQw4w9WgXcQ" = None)
    by (vm_compute; reflexivity).
  assert (Hs : save_transcript "dQw4w9WgXcQ"
                 (printed fresh_world [not_found_line "dQw4w9WgXcQ"]) =
               (Ok 0, snd (query_transcript "dQw4w9WgXcQ" "12:60;7pm" fresh_world)))
    by reflexivity.
  split; [exact Hne|]. split; [exact Hm|]. split; [exact Hov|].
  split.
  - split; [exact Hc|].
    exact (proj1 (malformed_range_is_reported cached_world "dQw4w9WgXcQ" "12:60;7pm"
                    Hne Hm Hov) (transcript_dict sample_transcript)
                 (JList (map snippet_dict sample_snippets)) Hc eq_refl).
  - split; [exact Hf|]. split; [reflexivity|]. split; [exact Hs|].
    exact (proj2 (malformed_range_is_reported fresh_world "dQw4w9WgXcQ" "12:60;7pm"
                    Hne Hm Hov) sample_transcript
                 (snd (query_transcript "dQw4w9WgXcQ" "12:60;7pm" fresh_world))
                 Hf eq_refl Hs).
Defined.

Section Entries.
Variables start_seconds end_seconds : float.

Lemma filter_snippets_prefix (pre : list Snippet) (rest acc : list json) :
  filter_snippets (map snippet_dict pre ++ rest) start_seconds end_seconds acc =
  filter_snippets rest start_seconds end_seconds
    (acc ++ map snippet_dict (List.filter (overlaps start_seconds end_seconds) pre))%list.
Proof.
  revert acc. induction pre as [|f pre IH]; intros acc.
  - simpl. now rewrite app_nil_r.
  - change (map snippet_dict (f :: pre) ++ rest)%list
      with (snippet_dict f :: (map snippet_dict pre ++ rest))%list.
    rewrite filter_snippets_step, IH. simpl.
    destruct (overlaps start_seconds end_seconds f); [|reflexivity].
    simpl. now rewrite <- app_assoc.
Qed.

Lemma filter_snippets_untexted (f : Snippet) (rest acc : list json) :
  filter_snippets (untexted_dict f :: rest) start_seconds end_seconds acc =
  filter_snippets rest start_seconds end_seconds
    (if overlaps start_seconds end_seconds f then (acc ++ [untexted_dict f])%list else acc).
Proof.
  unfold overlaps. simpl.
  destruct (Float.leb (start f) end_seconds); simpl; [|reflexivity].
  now destruct (Float.geb (Float.add (start f) (duration f)) start_seconds).
Qed.

Lemma texts_prefix (l : list Snippet) (rest : list json) :
  Py.mapM (fun snippet => Py.getitem snippet "text") (map snippet_dict l ++ rest) =
  (bs ← Py.mapM (fun snippet => Py.getitem snippet "text") rest;
   Ok (map (fun f => JStr (text f)) l ++ bs)%list).
Proof.
  induction l as [|f l IH].
  - simpl. now destruct (Py.mapM _ rest).
  - change (map snippet_dict (f :: l) ++ rest)%list
      with (snippet_dict f :: (map snippet_dict l ++ rest))%list.
    cbn [Py.mapM]. rewrite IH. simpl.
    now destruct (Py.mapM _ rest).
Qed.

End Entries.

(** X6: [start] and [duration] are read from every fragment, [text]
    only from the selected ones.  A fragment without [text] makes the
    range query fail with [KeyError] exactly when the window selects it,
    and is passed over otherwise; a fragment without [start] makes it
    fail whatever the window and whatever follows. *)
Theorem fragment_entries_read :
  forall (pre post : list Snippet) (f : Snippet) (start_seconds end_seconds : float),
    range_query (JList (map snippet_dict pre ++ untexted_dict f :: map snippet_dict post))
                start_seconds end_seconds =
      (if overlaps start_seconds end_seconds f then Raise KeyError
       else Ok (overlapping_text (pre ++ post) start_seconds end_seconds)) /\
    (forall rest : list json,
        range_query (JList (map snippet_dict pre ++ unstarted_dict f :: rest))
                    start_seconds end_seconds = Raise KeyError).
Proof.
  intros pre post f s e. split.
  - unfold range_query. cbn [Py.iter mbind result_bind].
    rewrite filter_snippets_prefix, filter_snippets_untexted.
    destruct (overlaps s e f) eqn:Hov.
    + rewrite filter_snippets_dicts. cbn [mbind result_bind].
      rewrite app_nil_l, <- !app_assoc, texts_prefix. reflexivity.
    + rewrite filter_snippets_dicts. cbn [mbind result_bind].
      rewrite app_nil_l, <- map_app, <- List.filter_app.
      rewrite texts_of_dicts. cbn [mbind result_bind]. apply join_strs.
  - intros rest. unfold range_query. cbn [Py.iter mbind result_bind].
    now rewrite filter_snippets_prefix.
Qed.

(** ** Windows with a NaN bound *)

Lemma leb_nan (x : float) : Float.leb x S754_nan = false.
Proof. now destruct x. Qed.

Lemma geb_nan (x : float) : Float.geb x S754_nan = false.
Proof. now destruct x. Qed.

(** X7: [float] reads "nan", so a range string can parse to a window
    with a NaN bound; it is not reported as malformed, and it selects no
    fragment: the answer is the empty string. *)
Theorem nan_window_is_empty :
  forall (w : World) (video_id time_range : string)
         (transcript : Api.FetchedTranscript) (start_seconds end_seconds : float),
    files w !! cache_path video_id = Some (transcript_dict transcript) ->
    parse_time_range time_range = Ok (start_seconds, end_seconds) ->
    start_seconds = S754_nan \/ end_seconds = S754_nan ->
    query_transcript video_id time_range w = (Ok (JStr ""), w).
Proof.
  intros w video_id time_range transcript s e Hf Hp Hnan.
  rewrite (query_transcript_range _ _ _ _ _ _ Hf Hp). do 2 f_equal.
  unfold overlapping_text. rewrite filter_none; [reflexivity|].
  intros f _. unfold overlaps.
  destruct Hnan as [-> | ->]; [rewrite geb_nan; apply andb_false_r | now rewrite leb_nan].
Qed.

Lemma nan_window_is_empty_witness :
  files cached_world !! cache_path "dQw4w9WgXcQ" = Some (transcript_dict sample_transcript) /\
  parse_time_range "0:00;0:nan" = Ok (S754_zero false, S754_nan) /\
  query_transcript "dQw4w9WgXcQ" "0:00;0:nan" cached_world = (Ok (JStr ""), cached_world).
Proof.
  assert (Hf : files cached_world !! cache_path "dQw4w9WgXcQ" =
               Some (transcript_dict sample_transcript)) by (vm_compute; reflexivity).
  assert (Hp : parse_time_range "0:00;0:nan" = Ok (S754_zero false, S754_nan))
    by (vm_compute; reflexivity).
  split; [exact Hf|]. split; [exact Hp|].
  exact (nan_window_is_empty cached_world "dQw4w9WgXcQ" "0:00;0:nan" sample_transcript
           (S754_zero false) S754_nan Hf Hp (or_intror eq_refl)).
Defined.

(** ** The raw transcript is never returned *)


(** ** Time strings are positional *)

(** X9: an hours field counts as sixty minutes and nothing else: a
    three-part string [h:m:s] and a two-part string [t:s] with the same
    seconds field and [t = 60 h + m] parse to the same result, errors
    included. *)
Theorem hours_are_sixty_minutes :
  forall (a b hours minutes total seconds : string) (h m : Z),
    Str.split ":" a = [hours; minutes; seconds] ->
    Str.split ":" b = [total; seconds] ->
    py_int hours = Ok h -> py_int minutes = Ok m -> py_int total = Ok (h * 60 + m) ->
    parse_time_to_seconds a = parse_time_to_seconds b.
Proof.
  intros a b hours minutes total seconds h m Ha Hb Hh Hm Ht.
  rewrite (parse_three_parts _ _ _ _ Ha), (parse_two_parts _ _ _ Hb), Hh, Hm, Ht.
  simpl. destruct (py_float seconds) as [x|e]; [|reflexivity]. simpl.
  f_equal. lia.
Qed.

Lemma hours_are_sixty_minutes_witness :
  Str.split ":" "1:30:15.5" = ["1"; "30"; "15.5"] /\
  Str.split ":" "90:15.5" = ["90"; "15.5"] /\
  py_int "1" = Ok 1 /\ py_int "30" = Ok 30 /\ py_int "90" = Ok (1 * 60 + 30) /\
  parse_time_to_seconds "1:30:15.5" = parse_time_to_seconds "90:15.5".
Proof.
  do 5 (split; [vm_compute; reflexivity|]).
  exact (hours_are_sixty_minutes "1:30:15.5" "90:15.5" "1" "30" "90" "15.5" 1 30
           eq_refl eq_refl eq_refl eq_refl eq_refl).
Defined.

(** ** Widening the window *)

Section FloatOrder.

Local Ltac order_cases :=
  repeat match goal with
         | H : context [PosDef.Pos.compare_cont Eq ?a ?b] |- _ =>
             change (PosDef.Pos.compare_cont Eq a b) with (Pos.compare a b) in H
         | |- context [PosDef.Pos.compare_cont Eq ?a ?b] =>
             change (PosDef.Pos.compare_cont Eq a b) with (Pos.compare a b)
         | H : context [Z.compare ?a ?b] |- _ => destruct (Z.compare_spec a b)
         | |- context [Z.compare ?a ?b] => destruct (Z.compare_spec a b)
         | H : context [Pos.compare ?a ?b] |- _ => destruct (Pos.compare_spec a b)
         | |- context [Pos.compare ?a ?b] => destruct (Pos.compare_spec a b)
         end.

Lemma geb_leb (x y : float) : Float.geb x y = Float.leb y x.
Proof.
  unfold Float.geb, Float.leb.
  destruct x as [sx|sx| |sx mx ex], y as [sy|sy| |sy my ey];
    try destruct sx; try destruct sy; simpl; try reflexivity;
    order_cases; simpl; try reflexivity; try lia.
Qed.

Lemma leb_trans (x y z : float) :
  Float.leb x y = true -> Float.leb y z = true -> Float.leb x z = true.
Proof.
  unfold Float.leb.
  destruct x as [sx|sx| |sx mx ex], y as [sy|sy| |sy my ey], z as [sz|sz| |sz mz ez];
    try destruct sx; try destruct sy; try destruct sz; simpl;
    try reflexivity; try discriminate;
    intros H1 H2; order_cases; simpl in *;
    try reflexivity; try discriminate; try lia.
Qed.

Lemma overlaps_widen (s e s' e' : float) (f : Snippet) :
  Float.leb s' s = true -> Float.leb e e' = true ->
  overlaps s e f = true -> overlaps s' e' f = true.
Proof.
  intros Hs He. unfold overlaps. rewrite !andb_true_iff, !geb_leb.
  intros [H1 H2]. split; [exact (leb_trans _ _ _ H1 He) | exact (leb_trans _ _ _ Hs H2)].
Qed.

End FloatOrder.

(** X10: widening the window loses nothing.  If the second window
    starts no later and ends no earlier than the first, the fragments
    the loop keeps for the first are among those it keeps for the second,
    in the same order. *)
Theorem wider_window_selects_more :
  forall (frags : list Snippet) (s e s' e' : float),
    Float.leb s' s = true -> Float.leb e e' = true ->
    exists narrow wide : list Snippet,
      filter_snippets (map snippet_dict frags) s e [] = Ok (map snippet_dict narrow) /\
      filter_snippets (map snippet_dict frags) s' e' [] = Ok (map snippet_dict wide) /\
      sublist narrow wide /\ sublist wide frags.
Proof.
  intros frags s e s' e' Hs He.
  exists (List.filter (overlaps s e) frags), (List.filter (overlaps s' e') frags).
  rewrite !filter_snippets_dicts. split; [reflexivity|]. split; [reflexivity|].
  split; [|apply filter_sublist].
  induction frags as [|f frags IH]; [constructor|]. simpl.
  destruct (overlaps s e f) eqn:Hf.
  - rewrite (overlaps_widen _ _ _ _ _ Hs He Hf). now constructor.
  - destruct (overlaps s' e' f); [now constructor | exact IH].
Qed.

Lemma wider_window_selects_more_witness :
  Float.leb (Float.of_Z 0) (Float.of_Z 3) = true /\
  Float.leb (Float.of_Z 6) (Float.of_Z 21) = true /\
  exists narrow wide : list Snippet,
    filter_snippets (map snippet_dict sample_snippets) (Float.of_Z 3) (Float.of_Z 6) [] =
      Ok (map snippet_dict narrow) /\
    filter_snippets (map snippet_dict sample_snippets) (Float.of_Z 0) (Float.of_Z 21) [] =
      Ok (map snippet_dict wide) /\
    sublist narrow wide /\ sublist wide sample_snippets.
Proof.
  split; [reflexivity|]. split; [reflexivity|].
  exact (wider_window_selects_more sample_snippets (Float.of_Z 3) (Float.of_Z 6)
           (Float.of_Z 0) (Float.of_Z 21) eq_refl eq_refl).
Defined.

(** ** The interactive program: runs *)

Section MainRuns.
Variable py_str : pyval -> string.

Local Ltac term :=
  unfold run_main, main, Term.input, Term.run, Term.leave, mbind, T_bind, mret, T_ret,
    IO.print, IO.path_exists, IO.read_json, IO.lift; simpl.

Local Ltac present H :=
  rewrite H; rewrite bool_decide_eq_true_2 by eauto; simpl; rewrite ?H; simpl.

Local Ltac absent H :=
  rewrite H; rewrite bool_decide_eq_false_2 by (intros [? ?]; discriminate); simpl.

Local Ltac finish :=
  unfold printed, stored, cached_greeting, fetched_greeting, menu, id_prompt,
    range_prompt, range_header; simpl;
  rewrite <- ?app_assoc; reflexivity.


(** X12: the menu entry for the full transcript never shows one.
    Whenever [main] reads the choice 1, for a video that was cached or
    that it has just fetched, it ends with an uncaught [AttributeError]
    right after the menu, without printing a transcript. *)
Theorem main_full_transcript_fails :
  (forall (w : World) (video_id : string) (rest : list string) (doc loaded_id : json),
      files w !! cache_path video_id = Some doc ->
      Py.getitem doc "video_id" = Ok loaded_id ->
      run_main py_str {| world := w; stdin := video_id :: "1" :: rest |} =
        (Uncaught AttributeError,
         {| world := printed w (cached_greeting py_str video_id loaded_id ++ menu);
            stdin := rest |})) /\
  (forall (w : World) (video_id : string) (rest : list string)
          (transcript : Api.FetchedTranscript),
      files w !! cache_path video_id = None ->
      youtube w video_id = Ok transcript ->
      run_main py_str {| world := w; stdin := video_id :: "1" :: rest |} =
        (Uncaught AttributeError,
         {| world := printed (stored w video_id transcript)
                       (fetched_greeting video_id ++ menu);
            stdin := rest |})).
Proof.
  split.
  - intros w video_id rest doc loaded_id Hf Hv. term. present Hf.
    rewrite Hv. simpl.
    match goal with |- context [get_raw_transcripts video_id ?w0] =>
      rewrite (get_raw_cached video_id w0 doc Hf) end.
    finish.
  - intros w video_id rest transcript Hf Hy. term. absent Hf.
    match goal with |- context [save_transcript video_id ?w0] =>
      rewrite (save_fetched video_id w0 _ Hy) end.
    simpl.
    match goal with |- context [get_raw_transcripts video_id ?w0] =>
      rewrite (get_raw_cached video_id w0 (transcript_dict transcript)
                 (lookup_insert_eq _ _ _)) end.
    finish.
Qed.

(** X13: the menu entry for a time range prints what [query_transcript]
    returns, under a header that repeats the range string; so a malformed
    range string is answered by the error text printed as if it were the
    transcript.  When the query raises, the exception leaves [main]
    uncaught, after the range prompt and before any header. *)
Theorem main_range_choice :
  forall (w : World) (video_id time_range : string) (rest : list string)
         (doc loaded_id : json),
    files w !! cache_path video_id = Some doc ->
    Py.getitem doc "video_id" = Ok loaded_id ->
    run_main py_str {| world := w; stdin := video_id :: "2" :: time_range :: rest |} =
      match loaded_answer doc time_range with
      | Ok answer =>
          (Returned,
           {| world := printed w (cached_greeting py_str video_id loaded_id ++ menu ++
                                  [range_prompt; range_header time_range;
                                   py_str (PData answer)]);
              stdin := rest |})
      | Raise e =>
          (Uncaught e,
           {| world := printed w (cached_greeting py_str video_id loaded_id ++ menu ++
                                  [range_prompt]);
              stdin := rest |})
      end.
Proof.
  intros w video_id time_range rest doc loaded_id Hf Hv. term. present Hf.
  rewrite Hv. simpl.
  match goal with |- context [query_transcript video_id time_range ?w0] =>
    rewrite (query_cached video_id time_range w0 doc Hf) end.
  destruct (loaded_answer doc time_range); finish.
Qed.

(** X14: any choice other than 1 and 2 is answered with "Invalid
    choice!"; [main] returns and the world is otherwise as the menu left
    it. *)
Theorem main_invalid_choice :
  forall (w : World) (video_id choice : string) (rest : list string)
         (doc loaded_id : json),
    files w !! cache_path video_id = Some doc ->
    Py.getitem doc "video_id" = Ok loaded_id ->
    choice <> "1" -> choice <> "2" ->
    run_main py_str {| world := w; stdin := video_id :: choice :: rest |} =
      (Returned,
       {| world := printed w (cached_greeting py_str video_id loaded_id ++ menu ++
                              ["Invalid choice!"]);
          stdin := rest |}).
Proof.
  intros w video_id choice rest doc loaded_id Hf Hv H1 H2. term. present Hf.
  rewrite Hv. simpl.
  apply String.eqb_neq in H1, H2. rewrite H1, H2. finish.
Qed.

(** X15: [main] reads the [video_id] entry of a cached document, which
    [query_transcript] never reads: on a stored dict without that entry
    it ends with an uncaught [KeyError] before the menu is shown. *)
Theorem main_needs_video_id :
  forall (w : World) (video_id : string) (rest : list string) (doc : json),
    files w !! cache_path video_id = Some doc ->
    Py.getitem doc "video_id" = Raise KeyError ->
    run_main py_str {| world := w; stdin := video_id :: rest |} =
      (Uncaught KeyError,
       {| world := printed w [id_prompt;
                              "Transcript for video " ++ video_id ++
                              " already exists. Loading from file..."];
          stdin := rest |}).
Proof.
  intros w video_id rest doc Hf Hv. term. present Hf. rewrite Hv. finish.
Qed.

(** X16: for a cached video [main] works offline and read-only: however
    it ends and whatever is typed after the video id, it makes no request
    to the service and leaves files and directories as they were. *)
Theorem main_cached_read_only :
  forall (w : World) (video_id : string) (rest : list string) (doc : json),
    files w !! cache_path video_id = Some doc ->
    let t' := snd (run_main py_str {| world := w; stdin := video_id :: rest |}) in
    files (world t') = files w /\ dirs (world t') = dirs w /\
    requests (world t') = requests w.
Proof.
  intros w video_id rest doc Hf t'. unfold t'. clear t'. term. present Hf.
  destruct (Py.getitem doc "video_id") as [loaded_id|e]; simpl; [|repeat split].
  destruct rest as [|choice rest]; simpl; [repeat split|].
  destruct (String.eqb choice "1").
  - match goal with |- context [get_raw_transcripts video_id ?w0] =>
      rewrite (get_raw_cached video_id w0 doc Hf) end.
    repeat split.
  - destruct (String.eqb choice "2"); simpl; [|repeat split].
    destruct rest as [|time_range rest]; simpl; [repeat split|].
    match goal with |- context [query_transcript video_id time_range ?w0] =>
      rewrite (query_cached video_id time_range w0 doc Hf) end.
    destruct (loaded_answer doc time_range); repeat split.
Qed.

End MainRuns.


Lemma main_full_transcript_fails_witness :
  (files cached_world !! cache_path "dQw4w9WgXcQ" = Some (transcript_dict sample_transcript) /\
   Py.getitem (transcript_dict sample_transcript) "video_id" = Ok (JStr "dQw4w9WgXcQ") /\
   run_main sample_str {| world := cached_world; stdin := ["dQw4w9WgXcQ"; "1"] |} =
     (Uncaught AttributeError,
      {| world := printed cached_world
                    (cached_greeting sample_str "dQw4w9WgXcQ" (JStr "dQw4w9WgXcQ") ++ menu);
         stdin := [] |})) /\
  (files fresh_world !! cache_path "dQw4w9WgXcQ" = None /\
   youtube fresh_world "dQw4w9WgXcQ" = Ok sample_transcript /\
   run_main sample_str {| world := fresh_world; stdin := ["dQw4w9WgXcQ"; "1"] |} =
     (Uncaught AttributeError,
      {| world := printed (stored fresh_world "dQw4w9WgXcQ" sample_transcript)
                    (fetched_greeting "dQw4w9WgXcQ" ++ menu);
         stdin := [] |})).
Proof.
  assert (Hc : files cached_world !! cache_path "dQw4w9WgXcQ" =
               Some (transcript_dict sample_transcript)) by (vm_compute; reflexivity).
  assert (Hf : files fresh_world !! cache_path "dQw4w9WgXcQ" = None)
    by (vm_compute; reflexivity).
  split.
  - split; [exact Hc|]. split; [reflexivity|].
    exact (proj1 (main_full_transcript_fails sample_str) cached_world "dQw4w9WgXcQ" []
             (transcript_dict sample_transcript) (JStr "dQw4w9WgXcQ") Hc eq_refl).
  - split; [exact Hf|]. split; [reflexivity|].
    exact (proj2 (main_full_transcript_fails sample_str) fresh_world "dQw4w9WgXcQ" []
             sample_transcript Hf eq_refl).
Defined.

Lemma main_range_choice_witness :
  files cached_world !! cache_path "dQw4w9WgXcQ" = Some (transcript_dict sample_transcript) /\
  Py.getitem (transcript_dict sample_transcript) "video_id" = Ok (JStr "dQw4w9WgXcQ") /\
  run_main sample_str {| world := cached_world;
                         stdin := ["dQw4w9WgXcQ"; "2"; "0:03;0:06"] |} =
    match loaded_answer (transcript_dict sample_transcript) "0:03;0:06" with
    | Ok answer =>
        (Returned,
         {| world := printed cached_world
                       (cached_greeting sample_str "dQw4w9WgXcQ" (JStr "dQw4w9WgXcQ") ++
                        menu ++ [range_prompt; range_header "0:03;0:06";
                                 sample_str (PData answer)]);
            stdin := [] |})
    | Raise e =>
        (Uncaught e,
         {| world := printed cached_world
                       (cached_greeting sample_str "dQw4w9WgXcQ" (JStr "dQw4w9WgXcQ") ++
                        menu ++ [range_prompt]);
            stdin := [] |})
    end.
Proof.
  assert (Hc : files cached_world !! cache_path "dQw4w9WgXcQ" =
               Some (transcript_dict sample_transcript)) by (vm_compute; reflexivity).
  split; [exact Hc|]. split; [reflexivity|].
  exact (main_range_choice sample_str cached_world "dQw4w9WgXcQ" "0:03;0:06" []
           (transcript_dict sample_transcript) (JStr "dQw4w9WgXcQ") Hc eq_refl).
Defined.

(** What the user sees for a good and for a malformed range string. *)
Example main_range_sessions :
  stdout (world (snd (run_main sample_str
    {| world := cached_world; stdin := ["dQw4w9WgXcQ"; "2"; "0:03;0:06"] |}))) =
    (cached_greeting sample_str "dQw4w9WgXcQ" (JStr "dQw4w9WgXcQ") ++ menu ++
     [range_prompt; range_header "0:03;0:06"; "hello world"])%list /\
  stdout (world (snd (run_main sample_str
    {| world := cached_world; stdin := ["dQw4w9WgXcQ"; "2"; "3 to 6"] |}))) =
    (cached_greeting sample_str "dQw4w9WgXcQ" (JStr "dQw4w9WgXcQ") ++ menu ++
     [range_prompt; range_header "3 to 6"; range_error])%list.
Proof. split; vm_compute; reflexivity. Qed.

Lemma main_invalid_choice_witness :
  files cached_world !! cache_path "dQw4w9WgXcQ" = Some (transcript_dict sample_transcript) /\
  Py.getitem (transcript_dict sample_transcript) "video_id" = Ok (JStr "dQw4w9WgXcQ") /\
  "3" <> "1" /\ "3" <> "2" /\
  run_main sample_str {| world := cached_world; stdin := ["dQw4w9WgXcQ"; "3"; "x"] |} =
    (Returned,
     {| world := printed cached_world
                   (cached_greeting sample_str "dQw4w9WgXcQ" (JStr "dQw4w9WgXcQ") ++
                    menu ++ ["Invalid choice!"]);
        stdin := ["x"] |}).
Proof.
  assert (Hc : files cached_world !! cache_path "dQw4w9WgXcQ" =
               Some (transcript_dict sample_transcript)) by (vm_compute; reflexivity).
  assert (H1 : "3" <> "1") by discriminate.
  assert (H2 : "3" <> "2") by discriminate.
  split; [exact Hc|]. split; [reflexivity|]. split; [exact H1|]. split; [exact H2|].
  exact (main_invalid_choice sample_str cached_world "dQw4w9WgXcQ" "3" ["x"]
           (transcript_dict sample_transcript) (JStr "dQw4w9WgXcQ") Hc eq_refl H1 H2).
Defined.

Lemma main_needs_video_id_witness :
  files edited_world !! cache_path "dQw4w9WgXcQ" =
    Some (JDict [("snippets", JList (map snippet_dict sample_snippets));
                 ("transcript", JStr "edited by hand")]) /\
  fst (query_transcript "dQw4w9WgXcQ" "" edited_world) = Ok (JStr "edited by hand") /\
  run_main sample_str {| world := edited_world; stdin := ["dQw4w9WgXcQ"; "2"] |} =
    (Uncaught KeyError,
     {| world := printed edited_world
                   [id_prompt;
                    "Transcript for video " ++ "dQw4w9WgXcQ" ++
                    " already exists. Loading from file..."];
        stdin := ["2"] |}).
Proof.
  assert (He : files edited_world !! cache_path "dQw4w9WgXcQ" =
               Some (JDict [("snippets", JList (map snippet_dict sample_snippets));
                            ("transcript", JStr "edited by hand")]))
    by (vm_compute; reflexivity).
  split; [exact He|]. split; [vm_compute; reflexivity|].
  exact (main_needs_video_id sample_str edited_world "dQw4w9WgXcQ" ["2"] _ He eq_refl).
Defined.

Lemma main_cached_read_only_witness :
  files cached_world !! cache_path "dQw4w9WgXcQ" = Some (transcript_dict sample_transcript) /\
  files (world (snd (run_main sample_str
           {| world := cached_world; stdin := ["dQw4w9WgXcQ"; "2"; "0:00;1:00"] |}))) =
    files cached_world /\
  dirs (world (snd (run_main sample_str
          {| world := cached_world; stdin := ["dQw4w9WgXcQ"; "2"; "0:00;1:00"] |}))) =
    dirs cached_world /\
  requests (world (snd (run_main sample_str
              {| world := cached_world; stdin := ["dQw4w9WgXcQ"; "2"; "0:00;1:00"] |}))) =
    requests cached_world.
Proof.
  assert (Hc : files cached_world !! cache_path "dQw4w9WgXcQ" =
               Some (transcript_dict sample_transcript)) by (vm_compute; reflexivity).
  split; [exact Hc|].
  exact (main_cached_read_only sample_str cached_world "dQw4w9WgXcQ"
           ["2"; "0:00;1:00"] (transcript_dict sample_transcript) Hc).
Defined.

(** ** Refreshing, and queries on what was saved *)

(** X17: [save_transcript] does not look at the cache.  For a video that
    is already cached it asks the service again and replaces the stored
    document by the new one, leaving every other file alone; a query for
    the full text then returns the new text. *)
Theorem save_transcript_refreshes :
  forall (w : World) (video_id : string) (old : json)
         (transcript : Api.FetchedTranscript),
    files w !! cache_path video_id = Some old ->
    youtube w video_id = Ok transcript ->
    let w1 := snd (save_transcript video_id w) in
    fst (save_transcript video_id w) = Ok 0 /\
    requests w1 = (requests w ++ [video_id])%list /\
    files w1 !! cache_path video_id = Some (transcript_dict transcript) /\
    (forall p, p <> cache_path video_id -> files w1 !! p = files w !! p) /\
    query_transcript video_id "" w1 =
      (Ok (JStr (raw_transcript_of (Api.snippets transcript))), w1).
Proof.
  intros w video_id old transcript _ Hy w1. unfold w1.
  rewrite (save_fetched _ _ _ Hy). simpl.
  assert (Hl : <[cache_path video_id := transcript_dict transcript]> (files w)
                 !! cache_path video_id = Some (transcript_dict transcript))
    by apply lookup_insert_eq.
  split; [reflexivity|]. split; [reflexivity|]. split; [exact Hl|]. split.
  - intros p Hp. now apply lookup_insert_ne.
  - match goal with |- query_transcript _ _ ?w0 = _ =>
      rewrite (query_cached video_id "" w0 _ Hl) end.
    reflexivity.
Qed.

Lemma save_transcript_refreshes_witness :
  files edited_world !! cache_path "dQw4w9WgXcQ" =
    Some (JDict [("snippets", JList (map snippet_dict sample_snippets));
                 ("transcript", JStr "edited by hand")]) /\
  youtube edited_world "dQw4w9WgXcQ" = Ok sample_transcript /\
  query_transcript "dQw4w9WgXcQ" "" (snd (save_transcript "dQw4w9WgXcQ" edited_world)) =
    (Ok (JStr (raw_transcript_of (Api.snippets sample_transcript))),
     snd (save_transcript "dQw4w9WgXcQ" edited_world)).
Proof.
  assert (He : files edited_world !! cache_path "dQw4w9WgXcQ" =
               Some (JDict [("snippets", JList (map snippet_dict sample_snippets));
                            ("transcript", JStr "edited by hand")]))
    by (vm_compute; reflexivity).
  split; [exact He|]. split; [reflexivity|].
  exact (proj2 (proj2 (proj2 (proj2
           (save_transcript_refreshes edited_world "dQw4w9WgXcQ" _ sample_transcript
              He eq_refl))))).
Defined.

Lemma parse_time_range_raise time_range e :
  parse_time_range time_range = Raise e -> e = ValueError \/ e = OverflowError.
Proof.
  unfold parse_time_range.
  destruct (Str.split ";" time_range) as [|a [|b [|c l]]];
    try (intros [= <-]; now left).
  destruct (parse_time_to_seconds a) as [x|ea] eqn:Ha; simpl.
  - destruct (parse_time_to_seconds b) as [y|eb] eqn:Hb; simpl; [discriminate|].
    intros [= <-]. exact (parse_time_raise _ _ Hb).
  - intros [= <-]. exact (parse_time_raise _ _ Ha).
Qed.

(** X18: on a document that [save_transcript] wrote, a query never
    fails for the document's sake: for every range string it returns a
    string (the full text, the selected text or the error text) and
    leaves the world unchanged, or else raises [OverflowError], which
    happens only when the range string itself makes the parser
    overflow. *)
Theorem query_on_saved_document :
  forall (w : World) (video_id time_range : string)
         (transcript : Api.FetchedTranscript),
    files w !! cache_path video_id = Some (transcript_dict transcript) ->
    (exists s, query_transcript video_id time_range w = (Ok (JStr s), w)) \/
    (query_transcript video_id time_range w = (Raise OverflowError, w) /\
     parse_time_range time_range = Raise OverflowError).
Proof.
  intros w video_id time_range transcript Hf.
  rewrite (query_cached _ _ _ _ Hf). unfold loaded_answer.
  cbn [Py.getitem transcript_dict Py.lookup String.eqb Ascii.eqb Bool.eqb
       mbind result_bind].
  destruct (String.eqb time_range ""); [left; eauto|].
  destruct (parse_time_range time_range) as [[s e]|err] eqn:Hp.
  - rewrite range_query_dicts. left. eauto.
  - destruct (parse_time_range_raise _ _ Hp) as [-> | ->]; [left; eauto | right; auto].
Qed.

Lemma query_on_saved_document_witness :
  files cached_world !! cache_path "dQw4w9WgXcQ" = Some (transcript_dict sample_transcript) /\
  ((exists s, query_transcript "dQw4w9WgXcQ" "0:00;abc" cached_world =
                (Ok (JStr s), cached_world)) \/
   (query_transcript "dQw4w9WgXcQ" "0:00;abc" cached_world =
      (Raise OverflowError, cached_world) /\
    parse_time_range "0:00;abc" = Raise OverflowError)).
Proof.
  assert (Hc : files cached_world !! cache_path "dQw4w9WgXcQ" =
               Some (transcript_dict sample_transcript)) by (vm_compute; reflexivity).
  split; [exact Hc|].
  exact (query_on_saved_document cached_world "dQw4w9WgXcQ" "0:00;abc"
           sample_transcript Hc).
Defined.
